(** * internet_connection_logger: the sampling scheduler and metrics pipeline

    A shallow embedding of [main.py] (class [InternetMonitor] and [main]) and
    the properties of its scheduler, latency parser and in-memory series.

    Conventions of the embedding:
    - a Python [float] is a binary64 number, Rocq's primitive [float];
    - a Python [int] is a [Z];
    - a Python [str] is a [string] whose characters are the code points below
      256;
    - a call that can raise returns [Exc A]; [try ... except Exception] is a
      [match] on that result;
    - [self] is threaded explicitly; what the process does to the outside
      world (probe invocations, console output, writes of the log file) is
      recorded as a list of [Event]s. *)

From Stdlib Require Import ZArith List String Ascii Bool Lia.
From Stdlib Require Import QArith Qreduction.
From Stdlib Require Import Floats.
From Stdlib Require Import DecimalString.
Import ListNotations.

Local Open Scope string_scope.
Local Open Scope list_scope.
Local Open Scope Z_scope.

(** ** Exceptions *)

Module Py.

(** The subclasses of [Exception] that the modelled calls raise.  [OtherError]
    stands for any further subclass (network errors of the speed test, a
    missing [ping] executable, ...). *)
Inductive exn : Type :=
| ValueError
| IndexError
| ZeroDivisionError
| OverflowError
| AttributeError
| StatisticsError
| OtherError (msg : string).

Inductive Exc (A : Type) : Type :=
| Ok (a : A)
| Raise (e : exn).
Arguments Ok {A} a.
Arguments Raise {A} e.

Definition bind {A B : Type} (m : Exc A) (k : A -> Exc B) : Exc B :=
  match m with
  | Ok a => k a
  | Raise e => Raise e
  end.

Definition raises {A : Type} (m : Exc A) : bool :=
  match m with Ok _ => false | Raise _ => true end.

Declare Scope exc_scope.
Delimit Scope exc_scope with exc.
Notation "x <- m ;; k" := (bind m (fun x => k))
  (at level 61, m at next level, right associativity) : exc_scope.
Notation "' pat <- m ;; k" := (bind m (fun x => match x with pat => k end))
  (at level 61, pat pattern, m at next level, right associativity) : exc_scope.

(** [[f(x) for x in xs]]: the elements are evaluated left to right and the
    first exception aborts the comprehension. *)
Fixpoint comprehension {A B : Type} (f : A -> Exc B) (xs : list A) : Exc (list B) :=
  match xs with
  | [] => Ok []
  | x :: rest =>
      (y <- f x ;; ys <- comprehension f rest ;; Ok (y :: ys))%exc
  end.

(** [xs[i]] for a non-negative literal index. *)
Definition getitem {A : Type} (xs : list A) (i : nat) : Exc A :=
  match nth_error xs i with
  | Some x => Ok x
  | None => Raise IndexError
  end.

(** ** Strings *)

Definition code (c : ascii) : N := N_of_ascii c.

(** [str.isspace] on one character (code points below 256). *)
Definition isspace (c : ascii) : bool :=
  let n := code c in
  ((9 <=? n) && (n <=? 13) || (28 <=? n) && (n <=? 32)
   || (n =? 133) || (n =? 160))%N.

(** [sep in s] *)
Fixpoint contains (sep s : string) : bool :=
  prefix sep s ||
  match s with
  | EmptyString => false
  | String _ s' => contains sep s'
  end.

Fixpoint drop_while (p : ascii -> bool) (s : string) : string :=
  match s with
  | EmptyString => EmptyString
  | String c s' => if p c then drop_while p s' else s
  end.

Fixpoint rev_string (s acc : string) : string :=
  match s with
  | EmptyString => acc
  | String c s' => rev_string s' (String c acc)
  end.

Definition drop_while_end (p : ascii -> bool) (s : string) : string :=
  rev_string (drop_while p (rev_string s "")) "".

(** [s.strip()] *)
Definition strip (s : string) : string :=
  drop_while_end isspace (drop_while isspace s).

(** The scan of [s.split(sep)] for a non-empty [sep]: [skip] counts the
    characters of a separator still to be passed over, [cur] is the piece
    being read, reversed. *)
Fixpoint split_scan (sep s : string) (skip : nat) (cur : string) : list string :=
  match s with
  | EmptyString => [rev_string cur ""]
  | String c s' =>
      match skip with
      | S k => split_scan sep s' k cur
      | O =>
          if prefix sep s
          then rev_string cur "" :: split_scan sep s' (Nat.pred (String.length sep)) ""
          else split_scan sep s' 0 (String c cur)
      end
  end.

(** [s.split(sep)]; an empty separator raises [ValueError]. *)
Definition split (s sep : string) : Exc (list string) :=
  match sep with
  | EmptyString => Raise ValueError
  | _ => Ok (split_scan sep s 0 "")
  end.

(** The characters at which [str.splitlines] breaks a line (code points below
    256): LF, VT, FF, CR, FS, GS, RS and NEL. *)
Definition is_linebreak (c : ascii) : bool :=
  let n := code c in
  ((10 <=? n) && (n <=? 13) || (28 <=? n) && (n <=? 30) || (n =? 133))%N.

Definition is_cr (c : ascii) : bool := (code c =? 13)%N.
Definition is_lf (c : ascii) : bool := (code c =? 10)%N.

(** The scan of [s.splitlines()]: [after_cr] says that the previous character
    was a CR, so that an LF met now belongs to the same line break. *)
Fixpoint splitlines_scan (s : string) (after_cr : bool) (cur : string) : list string :=
  match s with
  | EmptyString =>
      match cur with
      | EmptyString => []
      | _ => [rev_string cur ""]
      end
  | String c s' =>
      if after_cr && is_lf c then splitlines_scan s' false cur
      else if is_linebreak c
           then rev_string cur "" :: splitlines_scan s' (is_cr c) ""
           else splitlines_scan s' false (String c cur)
  end.

(** [s.splitlines()] *)
Definition splitlines (s : string) : list string := splitlines_scan s false "".

(** ** Numbers *)

Definition Z2SF (z : Z) : spec_float :=
  match z with
  | Z0 => S754_zero false
  | Zpos p => S754_finite false p 0
  | Zneg p => S754_finite true p 0
  end.

(** The quotient of two integers rounded once, to the nearest binary64
    (ties to even). *)
Definition round_ratio (a b : Z) : spec_float :=
  SFdiv prec emax (Z2SF a) (Z2SF b).

(** [a / b] on two [int]s: true division. *)
Definition int_truediv (a b : Z) : Exc float :=
  if b =? 0 then Raise ZeroDivisionError
  else match round_ratio a b with
       | S754_infinity _ => Raise OverflowError
       | q => Ok (SF2Prim q)
       end.

(** The conversion of an [int] operand in mixed arithmetic, as in
    [x * 100] ([OverflowError] cannot occur on the integers met here). *)
Definition float_of_int (n : Z) : float := SF2Prim (round_ratio n 1).

(** ** The built-in [float(s)] on a [str] *)

Definition is_digit (c : ascii) : bool :=
  let n := code c in ((48 <=? n) && (n <=? 57))%N.

Definition digit_value (c : ascii) : Z := Z.of_N (code c) - 48.

(** Spaces outside ASCII become a blank and any other character from 127 on
    a question mark, before the text is read. *)
Definition to_ascii_text (c : ascii) : ascii :=
  if (code c <? 127)%N then c
  else if isspace c then " "%char else "?"%char.

Fixpoint map_string (f : ascii -> ascii) (s : string) : string :=
  match s with
  | EmptyString => EmptyString
  | String c s' => String (f c) (map_string f s')
  end.

(** The blanks [float] strips at both ends: TAB, LF, VT, FF, CR and space. *)
Definition is_c_space (c : ascii) : bool :=
  let n := code c in ((9 <=? n) && (n <=? 13) || (n =? 32))%N.

Definition is_underscore (c : ascii) : bool := (code c =? 95)%N.

(** Underscores are dropped when each stands between two digits; [prev] is
    the character before the one being read. *)
Fixpoint drop_underscores (s : string) (prev : ascii) : option string :=
  match s with
  | EmptyString => if is_underscore prev then None else Some EmptyString
  | String c s' =>
      if is_underscore c
      then if is_digit prev then drop_underscores s' c else None
      else if is_underscore prev && negb (is_digit c) then None
           else option_map (String c) (drop_underscores s' c)
  end.

Definition lower (c : ascii) : ascii :=
  let n := code c in
  if ((65 <=? n) && (n <=? 90))%N then ascii_of_N (n + 32) else c.

Fixpoint span_digits (s : string) (acc : Z) (count : Z) : Z * Z * string :=
  match s with
  | EmptyString => (acc, count, s)
  | String c s' =>
      if is_digit c then span_digits s' (10 * acc + digit_value c) (count + 1)
      else (acc, count, s)
  end.

Definition read_sign (s : string) : bool * string :=
  match s with
  | String "-"%char s' => (true, s')
  | String "+"%char s' => (false, s')
  | _ => (false, s)
  end.

(** The exponent part, when one is written in full; [None] when what follows
    the mantissa is not an exponent followed by the end of the text. *)
Definition read_exponent (s : string) : option Z :=
  match s with
  | EmptyString => Some 0
  | String c s' =>
      if (code (lower c) =? 101)%N then
        let '(neg, digits) := read_sign s' in
        match span_digits digits 0 0 with
        | (e, n, EmptyString) =>
            if 0 <? n then Some (if neg then - e else e) else None
        | _ => None
        end
      else None
  end.

(** [m * 10^k] rounded to binary64. *)
Definition decimal_value (neg : bool) (m k : Z) : float :=
  match m with
  | Z0 => if neg then neg_zero else zero
  | _ =>
      let sm := if neg then - m else m in
      SF2Prim (if 0 <=? k then round_ratio (sm * 10 ^ k) 1
               else round_ratio sm (10 ^ (- k)))
  end.

Definition read_number (s : string) : Exc float :=
  let '(neg, body) := read_sign s in
  let word := map_string lower body in
  if ((word =? "inf") || (word =? "infinity"))%string
  then Ok (if neg then neg_infinity else infinity)
  else if (word =? "nan")%string then Ok nan
  else
    let '(ipart, ni, rest) := span_digits body 0 0 in
    let '(mant, nf, rest') :=
      match rest with
      | String "."%char frac => span_digits frac ipart 0
      | _ => (ipart, 0, rest)
      end in
    if (ni + nf =? 0) then Raise ValueError
    else match read_exponent rest' with
         | Some e => Ok (decimal_value neg mant (e - nf))
         | None => Raise ValueError
         end.

(** [float(s)] *)
Definition float_of_str (s : string) : Exc float :=
  match drop_underscores (map_string to_ascii_text s) " "%char with
  | None => Raise ValueError
  | Some t =>
      match drop_while_end is_c_space (drop_while is_c_space t) with
      | EmptyString => Raise ValueError
      | body => read_number body
      end
  end.

(** ** The [statistics] module on lists of floats

    [mean] and [stdev] as CPython computes them from version 3.11 on: sums
    are exact fractions and each result is rounded once. *)

(** The exact value of a finite float; [None] for an infinity or a NaN. *)
Definition exact_ratio (x : float) : option Q :=
  match Prim2SF x with
  | S754_zero _ => Some 0%Q
  | S754_finite s m e =>
      let sm := if s then Zneg m else Zpos m in
      Some (if 0 <=? e then Qmake (sm * 2 ^ e) 1
            else Qmake sm (Z.to_pos (2 ^ (- e))))
  | _ => None
  end.

Fixpoint exact_ratios (data : list float) : option (list Q) :=
  match data with
  | [] => Some []
  | x :: rest =>
      match exact_ratio x, exact_ratios rest with
      | Some q, Some qs => Some (q :: qs)
      | _, _ => None
      end
  end.

Definition Qsum (qs : list Q) : Q := fold_left Qplus qs 0%Q.

Definition is_finite (x : float) : bool :=
  match exact_ratio x with Some _ => true | None => false end.

(** A fraction converted to [float]: numerator over denominator, rounded
    once. *)
Definition float_of_fraction (q : Q) : Exc float :=
  let r := Qred q in int_truediv (Qnum r) (Zpos (Qden r)).

(** [statistics.mean(data)] *)
Definition mean (data : list float) : Exc float :=
  let n := Z.of_nat (List.length data) in
  if n <? 1 then Raise StatisticsError
  else match exact_ratios data with
       | Some qs => float_of_fraction (Qsum qs / inject_Z n)
       | None =>
           let total :=
             fold_left PrimFloat.add
                       (filter (fun x => negb (is_finite x)) data) zero in
           Ok (PrimFloat.div total (float_of_int n))
       end.

Definition bit_length (n : Z) : Z :=
  if n =? 0 then 0 else Z.log2 (Z.abs n) + 1.

(** The square root of [n/m] rounded to an integer, to odd. *)
Definition integer_sqrt_of_frac_rto (n m : Z) : Z :=
  let a := Z.sqrt (n / m) in
  Z.lor a (if a * a * m =? n then 0 else 1).

(** The square root of [n/m] as a float, rounded once. *)
Definition float_sqrt_of_frac (n m : Z) : Exc float :=
  let q := (bit_length n - bit_length m - 109) / 2 in
  if 0 <=? q
  then int_truediv
         (Z.shiftl (integer_sqrt_of_frac_rto n (Z.shiftl m (2 * q))) q) 1
  else int_truediv
         (integer_sqrt_of_frac_rto (Z.shiftl n (- 2 * q)) m)
         (Z.shiftl 1 (- q)).

(** [statistics.stdev(data)]: the square root of the sum of the squared
    deviations from the mean over [n - 1], both computed exactly. *)
Definition stdev (data : list float) : Exc float :=
  let n := Z.of_nat (List.length data) in
  if n <? 2 then Raise StatisticsError
  else match exact_ratios data with
       | Some qs =>
           let sx := Qsum qs in
           let sxx := Qsum (map (fun q => q * q)%Q qs) in
           let ss := ((inject_Z n * sxx - sx * sx) / inject_Z n)%Q in
           let mss := Qred (ss / inject_Z (n - 1)) in
           float_sqrt_of_frac (Qnum mss) (Zpos (Qden mss))
       | None => Raise AttributeError
       end.

End Py.

Import Py.
Local Open Scope exc_scope.

(** ** The data model *)

(** One row of the series; the columns of [self.df].  [None] is Python's
    [None]. *)
Record Sample : Type := {
  timestamp : Z;
  download_speed : option float;
  upload_speed : option float;
  ping : option float;
  packet_loss : float;
  jitter : option float
}.

Definition DataFrame : Type := list Sample.

(** The attributes of an [InternetMonitor]. *)
Record InternetMonitor : Type := {
  log_file : string;
  speed_test_interval : float;
  last_speed_test : float;
  log_count : Z;
  df : DataFrame
}.

Definition set_last_speed_test (self : InternetMonitor) (t : float) : InternetMonitor :=
  {| log_file := log_file self;
     speed_test_interval := speed_test_interval self;
     last_speed_test := t;
     log_count := log_count self;
     df := df self |}.

(** ** The outside world *)

(** What the three calls on the [speedtest] module answer when they are made:
    [speedtest.Speedtest()], [st.download()] and [st.upload()] (bits per
    second). *)
Record Speedtest : Type := {
  st_new : Exc unit;
  st_download : Exc float;
  st_upload : Exc float
}.

(** The result of [subprocess.run(cmd, capture_output=True, text=True)]. *)
Record CompletedProcess : Type := {
  returncode : Z;
  stdout : string
}.

(** The parquet files on disk, by path: for each file the series that
    [pd.read_parquet] returns. *)
Definition FileSystem : Type := string -> option DataFrame.

(** A column holds a number in some row. *)
Definition holds_number (column : Sample -> option float) (rows : DataFrame) : bool :=
  existsb (fun row => match column row with Some _ => true | None => false end)
          rows.

(** A cell after [to_parquet] and [read_parquet]: in a column that holds a
    number a [None] comes back as NaN; in a column of [None] alone it comes
    back as [None]. *)
Definition reload_cell (numeric : bool) (cell : option float) : option float :=
  match cell with
  | Some x => Some x
  | None => if numeric then Some nan else None
  end.

(** A series after [to_parquet] and [read_parquet]. *)
Definition reloaded (rows : DataFrame) : DataFrame :=
  map (fun row =>
         {| timestamp := timestamp row;
            download_speed :=
              reload_cell (holds_number download_speed rows) (download_speed row);
            upload_speed :=
              reload_cell (holds_number upload_speed rows) (upload_speed row);
            ping := reload_cell (holds_number ping rows) (ping row);
            packet_loss := packet_loss row;
            jitter := reload_cell (holds_number jitter rows) (jitter row) |})
      rows.

(** The disk after [rows.to_parquet(path)]. *)
Definition write_file (fs : FileSystem) (path : string) (rows : DataFrame) : FileSystem :=
  fun p => if (p =? path)%string then Some (reloaded rows) else fs p.

(** What the world answers during one iteration of the loop of [main]. *)
Record TickEnv : Type := {
  timestamp_now : Z;                                   (* pd.Timestamp.now() *)
  time_time : float;                                   (* time.time() *)
  speedtest_reply : Speedtest;
  platform_system : string;                            (* platform.system().lower() *)
  subprocess_run : list string -> Exc CompletedProcess;
  to_parquet : Exc unit                                (* the write of the log file *)
}.

(** What the process does to the world.  [SpeedtestInvoked t completed] is
    recorded when [measure_speed] enters its [try] block with
    [current_time = t]; [completed] tells whether the three calls returned.
    [PrintedError what e] is the line [what: e] that a handler prints. *)
Inductive Event : Type :=
| SpeedtestInvoked (current_time : float) (completed : bool)
| PingInvoked (cmd : list string)
| Printed (msg : string)
| PrintedError (what : string) (e : exn)
| Displayed (total_logs : Z) (latest : Sample)
| Saved (path : string) (rows : DataFrame)
| Slept (seconds : Z).

(** ** [InternetMonitor.__init__] *)

Definition init (log_file : string) (speed_test_interval : float)
    (fs : FileSystem) : InternetMonitor :=
  match fs log_file with
  | Some rows =>
      {| log_file := log_file;
         speed_test_interval := speed_test_interval;
         last_speed_test := 0;
         log_count := Z.of_nat (List.length rows);
         df := rows |}
  | None =>
      {| log_file := log_file;
         speed_test_interval := speed_test_interval;
         last_speed_test := 0;
         log_count := 0;
         df := [] |}
  end.

(** ** [InternetMonitor.measure_speed] *)

(** The body of the [try] block, up to the two speeds in Mbps. *)
Definition speed_test (st : Speedtest) : Exc (float * float) :=
  _ <- st_new st ;;
  d <- st_download st ;;
  let download := (d / 1000000)%float in
  u <- st_upload st ;;
  let upload := (u / 1000000)%float in
  Ok (download, upload).

Definition measure_speed (self : InternetMonitor) (current_time : float)
    (st : Speedtest)
  : (option float * option float) * InternetMonitor * list Event :=
  if ((current_time - last_speed_test self) <? speed_test_interval self)%float
  then ((None, None), self, [])
  else
    match speed_test st with
    | Ok (download, upload) =>
        ((Some download, Some upload),
         set_last_speed_test self current_time,
         [SpeedtestInvoked current_time true])
    | Raise e =>
        ((None, None), self,
         [SpeedtestInvoked current_time false;
          PrintedError "Speed test failed" e])
    end.

(** ** [InternetMonitor.ping_command] *)

(** [(avg_ping, jitter, packet_loss)].  The integers [0] and [100] that the
    source returns or mixes with floats are the floats of the same value. *)
Definition PingResult : Type := option float * option float * float.

Definition ping_failed : PingResult := (None, None, 100%float).

Definition str (n : Z) : string := NilZero.string_of_int (Z.to_int n).

Definition ping_cmd (system host : string) (count : Z) : list string :=
  if (system =? "windows")%string
  then ["ping"; "-n"; str count; host]
  else ["ping"; "-c"; str count; host].

(** [float(line.split("time=")[1].split("ms")[0].strip())] *)
Definition windows_time (line : string) : Exc float :=
  parts <- split line "time=" ;;
  rest <- getitem parts 1 ;;
  pieces <- split rest "ms" ;;
  token <- getitem pieces 0 ;;
  float_of_str (strip token).

(** [float(line.split("time=")[1].split(" ")[0])] *)
Definition unix_time (line : string) : Exc float :=
  parts <- split line "time=" ;;
  rest <- getitem parts 1 ;;
  pieces <- split rest " " ;;
  token <- getitem pieces 0 ;;
  float_of_str token.

Definition time_of_line (system : string) : string -> Exc float :=
  if (system =? "windows")%string then windows_time else unix_time.

(** The lines that the comprehensions read. *)
Definition time_lines (output : string) : list string :=
  filter (contains "time=") (splitlines output).

(** The list [times] of the source. *)
Definition parse_times (system output : string) : Exc (list float) :=
  comprehension (time_of_line system) (time_lines output).

(** [statistics.stdev(times) if len(times) > 1 else 0] *)
Definition jitter_of (times : list float) : Exc float :=
  if 1 <? Z.of_nat (List.length times) then stdev times else Ok 0%float.

(** Lines 72 to 76: the three metrics of a non-empty [times]. *)
Definition metrics_of (times : list float) (count : Z) : Exc PingResult :=
  avg_ping <- mean times ;;
  jitter <- jitter_of times ;;
  ratio <- int_truediv (Z.of_nat (List.length times)) count ;;
  let packet_loss := (100 - (ratio * 100))%float in
  Ok (Some avg_ping, Some jitter, packet_loss).

(** Lines 58 to 78: what is made of a finished [ping] process. *)
Definition parse_ping (system : string) (count : Z) (result : CompletedProcess)
  : Exc PingResult :=
  if returncode result =? 0 then
    times <- parse_times system (stdout result) ;;
    match times with
    | [] => Ok ping_failed
    | _ :: _ => metrics_of times count
    end
  else Ok ping_failed.

(** The body of the [try] block. *)
Definition ping_attempt (system : string)
    (run : list string -> Exc CompletedProcess) (host : string) (count : Z)
  : Exc PingResult :=
  result <- run (ping_cmd system host count) ;;
  parse_ping system count result.

Definition ping_command (self : InternetMonitor) (system : string)
    (run : list string -> Exc CompletedProcess) (host : string) (count : Z)
  : PingResult * InternetMonitor * list Event :=
  match ping_attempt system run host count with
  | Ok r => (r, self, [PingInvoked (ping_cmd system host count)])
  | Raise e =>
      (ping_failed, self,
       [PingInvoked (ping_cmd system host count);
        PrintedError "Ping failed" e])
  end.

(** ** [InternetMonitor.collect_metrics] *)

Definition append_row (self : InternetMonitor) (new_row : Sample) : InternetMonitor :=
  {| log_file := log_file self;
     speed_test_interval := speed_test_interval self;
     last_speed_test := last_speed_test self;
     log_count := log_count self + 1;
     df := df self ++ [new_row] |}.

Definition collect_metrics (self : InternetMonitor) (env : TickEnv)
  : InternetMonitor * list Event :=
  let timestamp := timestamp_now env in
  let '((download, upload), self1, ev1) :=
    measure_speed self (time_time env) (speedtest_reply env) in
  let '((ping, jitter, packet_loss), self2, ev2) :=
    ping_command self1 (platform_system env) (subprocess_run env) "8.8.8.8" 3 in
  let new_row :=
    {| timestamp := timestamp;
       download_speed := download;
       upload_speed := upload;
       ping := ping;
       packet_loss := packet_loss;
       jitter := jitter |} in
  (append_row self2 new_row, ev1 ++ ev2).

(** ** [save_stats], [print_latest_stats] and [main] *)

(** [self.df.iloc[-1]] *)
Definition latest_row (rows : DataFrame) : option Sample :=
  nth_error (rev rows) 0.

(** The console shows the counter [log_count] and the latest row; on an
    empty series nothing is shown. *)
Definition print_latest_stats (self : InternetMonitor) : list Event :=
  match latest_row (df self) with
  | None => []
  | Some latest => [Displayed (log_count self) latest]
  end.

(** The process: the monitor, the disk, and everything done so far. *)
Record World : Type := {
  monitor : InternetMonitor;
  files : FileSystem;
  events : list Event
}.

(** An exception that nothing catches ends the process. *)
Inductive Status : Type :=
| Running
| Died (e : exn).

(** [self.df.to_parquet(self.log_file, index=False)]; a write that fails
    leaves the disk as it was. *)
Definition save_stats (self : InternetMonitor) (reply : Exc unit)
    (fs : FileSystem) : FileSystem * list Event * Status :=
  match reply with
  | Ok _ => (write_file fs (log_file self) (df self),
             [Saved (log_file self) (df self)], Running)
  | Raise e => (fs, [], Died e)
  end.

(** One iteration of the [while True] loop of [main]. *)
Definition tick (env : TickEnv) (w : World) : World * Status :=
  let '(self1, ev1) := collect_metrics (monitor w) env in
  let ev2 := print_latest_stats self1 in
  let '(fs1, ev3, status) := save_stats self1 (to_parquet env) (files w) in
  ({| monitor := self1;
      files := fs1;
      events := events w ++ ev1 ++ ev2 ++ ev3
                ++ match status with Running => [Slept 1] | Died _ => [] end |},
   status).

(** The loop over the answers of the world to its successive iterations. *)
Fixpoint run_ticks (envs : list TickEnv) (w : World) : World * Status :=
  match envs with
  | [] => (w, Running)
  | env :: rest =>
      match tick env w with
      | (w1, Running) => run_ticks rest w1
      | (w1, Died e) => (w1, Died e)
      end
  end.

(** ["\nMonitoring stopped by user"] *)
Definition interrupt_message : string :=
  String (ascii_of_nat 10) "Monitoring stopped by user".

(** [main]: the iterations of [envs] run, then the operator interrupts the
    [sleep] and the series is saved once more. *)
Definition main (fs : FileSystem) (envs : list TickEnv) (last_write : Exc unit)
  : World * Status :=
  let monitor0 := init "internet_stats.parquet" 300 fs in
  match run_ticks envs {| monitor := monitor0; files := fs; events := [] |} with
  | (w, Running) =>
      let '(fs1, ev, status) := save_stats (monitor w) last_write (files w) in
      ({| monitor := monitor w;
          files := fs1;
          events := events w ++ [Printed interrupt_message] ++ ev |},
       status)
  | (w, Died e) => (w, Died e)
  end.

(** ** Observations on a run *)

(** The invocations of the throughput probe in a list of events, each with
    the clock reading of its attempt and whether it completed. *)
Fixpoint speedtest_attempts (evs : list Event) : list (float * bool) :=
  match evs with
  | [] => []
  | SpeedtestInvoked t ok :: rest => (t, ok) :: speedtest_attempts rest
  | _ :: rest => speedtest_attempts rest
  end.

(** The totals that the console showed, in order. *)
Fixpoint displayed_totals (evs : list Event) : list Z :=
  match evs with
  | [] => []
  | Displayed n _ :: rest => n :: displayed_totals rest
  | _ :: rest => displayed_totals rest
  end.

(** The test of line 33: fewer than [interval] seconds have passed at [t]
    since [since]. *)
Definition too_early (interval since t : float) : bool :=
  ((t - since) <? interval)%float.

(** No attempt comes too early after the latest attempt that completed
    ([since] at first). *)
Fixpoint cooldown_after_success (interval since : float)
    (attempts : list (float * bool)) : bool :=
  match attempts with
  | [] => true
  | (t, ok) :: rest =>
      negb (too_early interval since t)
      && cooldown_after_success interval (if ok then t else since) rest
  end.

(** No attempt comes too early after the attempt before it, completed or
    not ([since] at first). *)
Fixpoint cooldown_after_attempt (interval since : float)
    (attempts : list (float * bool)) : bool :=
  match attempts with
  | [] => true
  | (t, _) :: rest =>
      negb (too_early interval since t)
      && cooldown_after_attempt interval t rest
  end.

(** The clock reading of the latest completed attempt. *)
Fixpoint latest_success (since : float) (attempts : list (float * bool)) : float :=
  match attempts with
  | [] => since
  | (t, ok) :: rest => latest_success (if ok then t else since) rest
  end.

(** Both speeds present or both absent. *)
Definition paired (download upload : option float) : bool :=
  match download, upload with
  | Some _, Some _ => true
  | None, None => true
  | _, _ => false
  end.

Definition row_paired (row : Sample) : bool :=
  paired (download_speed row) (upload_speed row).

(** A finished or failed [ping] from which no round-trip time comes out: the
    spawn raised, the exit status is not zero, or every line with [time=]
    holds a token that [float] refuses (in particular when there is no such
    line). *)
Definition no_valid_time (system output : string) : Prop :=
  forall line, In line (time_lines output) ->
               raises (time_of_line system line) = true.

Definition latency_unavailable (system : string)
    (run : list string -> Exc CompletedProcess) (host : string) (count : Z) : Prop :=
  match run (ping_cmd system host count) with
  | Raise _ => True
  | Ok result =>
      returncode result <> 0 \/ no_valid_time system (stdout result)
  end.

(** The packet loss as the specification writes it,
    [100 * (1 - len(times)/count)], evaluated in binary64 like the source's
    [100 - (len(times) / count * 100)]. *)
Definition spec_packet_loss (n count : Z) : Exc float :=
  ratio <- int_truediv n count ;;
  Ok (100 * (1 - ratio))%float.

(** The round-trip times as the specification wants them read: a line whose
    token [float] refuses is dropped and the other lines are kept. *)
Fixpoint spec_times (system : string) (lines : list string) : list float :=
  match lines with
  | [] => []
  | line :: rest =>
      match time_of_line system line with
      | Ok t => t :: spec_times system rest
      | Raise _ => spec_times system rest
      end
  end.

(** The result that the specification wants for a finished [ping] of exit
    status zero: the metrics of the times of the parsable lines. *)
Definition spec_ping (system : string) (count : Z) (output : string) : PingResult :=
  match spec_times system (time_lines output) with
  | [] => ping_failed
  | times =>
      match metrics_of times count with
      | Ok r => r
      | Raise _ => ping_failed
      end
  end.

(** Whether the three calls of the [try] block return. *)
Definition completes (st : Speedtest) : bool := negb (raises (speed_test st)).

(** The row that an iteration appends. *)
Definition new_row_of (self : InternetMonitor) (env : TickEnv) : Sample :=
  let m := measure_speed self (time_time env) (speedtest_reply env) in
  let p := ping_command (snd (fst m)) (platform_system env)
                        (subprocess_run env) "8.8.8.8" 3 in
  {| timestamp := timestamp_now env;
     download_speed := fst (fst (fst m));
     upload_speed := snd (fst (fst m));
     ping := fst (fst (fst (fst p)));
     packet_loss := snd (fst (fst p));
     jitter := snd (fst (fst (fst p))) |}.

(** What a run leaves behind, relative to the world it started in. *)
Record run_summary (w w' : World) (rows : DataFrame) (new : list Event) : Prop := {
  run_df : df (monitor w') = df (monitor w) ++ rows;
  run_events : events w' = events w ++ new;
  run_log_count :
    log_count (monitor w') = log_count (monitor w) + Z.of_nat (List.length rows);
  run_interval :
    speed_test_interval (monitor w') = speed_test_interval (monitor w);
  run_last_speed_test :
    last_speed_test (monitor w')
    = latest_success (last_speed_test (monitor w)) (speedtest_attempts new);
  run_cooldown :
    cooldown_after_success (speed_test_interval (monitor w))
      (last_speed_test (monitor w)) (speedtest_attempts new) = true;
  run_displays :
    displayed_totals new
    = map (fun i => log_count (monitor w) + Z.of_nat i)
          (seq 1 (List.length rows));
  run_paired : forallb row_paired rows = true
}.

(** The world in which a monitor has just been constructed. *)
Definition start (log_file : string) (speed_test_interval : float)
    (fs : FileSystem) : World :=
  {| monitor := init log_file speed_test_interval fs;
     files := fs;
     events := [] |}.

(** ** Sample inputs *)

Module Samples.

Definition LF : string := String (ascii_of_nat 10) "".

Definition text (lines : list string) : string :=
  String.concat LF lines ++ LF.

(** Three replies out of three, as the [ping] of Linux prints them. *)
Definition linux_three_replies : string :=
  text ["PING 8.8.8.8 (8.8.8.8) 56(84) bytes of data.";
        "64 bytes from 8.8.8.8: icmp_seq=1 ttl=117 time=10.0 ms";
        "64 bytes from 8.8.8.8: icmp_seq=2 ttl=117 time=12.0 ms";
        "64 bytes from 8.8.8.8: icmp_seq=3 ttl=117 time=14.0 ms";
        "";
        "--- 8.8.8.8 ping statistics ---";
        "3 packets transmitted, 3 received, 0% packet loss, time 2003ms";
        "rtt min/avg/max/mdev = 10.000/12.000/14.000/1.633 ms"].

(** Two replies out of three, as the [ping] of Windows prints them. *)
Definition windows_two_replies : string :=
  text ["Pinging 8.8.8.8 with 32 bytes of data:";
        "Reply from 8.8.8.8: bytes=32 time=10ms TTL=117";
        "Request timed out.";
        "Reply from 8.8.8.8: bytes=32 time=12ms TTL=117"].

(** Two replies out of four. *)
Definition linux_two_of_four : string :=
  text ["64 bytes from 8.8.8.8: icmp_seq=1 ttl=117 time=10.0 ms";
        "64 bytes from 8.8.8.8: icmp_seq=3 ttl=117 time=14.0 ms";
        "4 packets transmitted, 2 received, 50% packet loss, time 3004ms"].

(** A single reply. *)
Definition linux_one_reply : string :=
  text ["64 bytes from 8.8.8.8: icmp_seq=1 ttl=117 time=10.0 ms"].

(** The second of three lines carries a token that is no number. *)
Definition unparsable_line : string :=
  "64 bytes from 8.8.8.8: icmp_seq=2 ttl=117 time=12.0ms".

Definition linux_one_unparsable : string :=
  text ["64 bytes from 8.8.8.8: icmp_seq=1 ttl=117 time=10.0 ms";
        unparsable_line;
        "64 bytes from 8.8.8.8: icmp_seq=3 ttl=117 time=14.0 ms"].

Definition linux_without_unparsable : string :=
  text ["64 bytes from 8.8.8.8: icmp_seq=1 ttl=117 time=10.0 ms";
        "64 bytes from 8.8.8.8: icmp_seq=3 ttl=117 time=14.0 ms"].

(** Nothing but the summary: no host answered. *)
Definition linux_no_reply : string :=
  text ["PING 8.8.8.8 (8.8.8.8) 56(84) bytes of data.";
        "";
        "--- 8.8.8.8 ping statistics ---";
        "3 packets transmitted, 0 received, 100% packet loss, time 2042ms"].

Definition finished (status : Z) (output : string)
  : list string -> Exc CompletedProcess :=
  fun _ => Ok {| returncode := status; stdout := output |}.

Definition no_ping : list string -> Exc CompletedProcess :=
  fun _ => Raise (OtherError "FileNotFoundError").

Definition speedtest_ok : Speedtest :=
  {| st_new := Ok tt; st_download := Ok 50000000%float; st_upload := Ok 10000000%float |}.

Definition speedtest_offline : Speedtest :=
  {| st_new := Raise (OtherError "ConfigRetrievalError");
     st_download := Ok 50000000%float;
     st_upload := Ok 10000000%float |}.

Definition upload_fails : Speedtest :=
  {| st_new := Ok tt;
     st_download := Ok 50000000%float;
     st_upload := Raise (OtherError "SpeedtestUploadTimeout") |}.

Definition fresh : InternetMonitor :=
  init "internet_stats.parquet" 300 (fun _ => None).

Definition no_files : FileSystem := fun _ => None.

(** An iteration at clock reading [t]. *)
Definition env_at (t : float) (st : Speedtest)
    (run : list string -> Exc CompletedProcess) : TickEnv :=
  {| timestamp_now := 0;
     time_time := t;
     speedtest_reply := st;
     platform_system := "linux";
     subprocess_run := run;
     to_parquet := Ok tt |}.

End Samples.

(** ** Further observations *)

(** The commands that were spawned, in order. *)
Fixpoint ping_invocations (evs : list Event) : list (list string) :=
  match evs with
  | [] => []
  | PingInvoked cmd :: rest => cmd :: ping_invocations rest
  | _ :: rest => ping_invocations rest
  end.

(** The rows that the console showed, in order. *)
Fixpoint displayed_rows (evs : list Event) : list Sample :=
  match evs with
  | [] => []
  | Displayed _ row :: rest => row :: displayed_rows rest
  | _ :: rest => displayed_rows rest
  end.

(** The series that were written to disk, in order. *)
Fixpoint saved_series (evs : list Event) : list DataFrame :=
  match evs with
  | [] => []
  | Saved _ rows :: rest => rows :: saved_series rest
  | _ :: rest => saved_series rest
  end.

(** The iterations that a run goes through: all of them up to and including
    the first whose write of the log file raises. *)
Fixpoint executed (envs : list TickEnv) : list TickEnv :=
  match envs with
  | [] => []
  | env :: rest =>
      env :: (if raises (to_parquet env) then [] else executed rest)
  end.

(** The command of the latency probe at an iteration. *)
Definition tick_ping_cmd (env : TickEnv) : list string :=
  ping_cmd (platform_system env) "8.8.8.8" 3.

(** The three latency metrics of a result fit together: ping and jitter are
    both there, or both are absent and the packet loss is [100]. *)
Definition latency_consistent (r : PingResult) : Prop :=
  match r with
  | (Some _, Some _, _) => True
  | (None, None, loss) => loss = 100%float
  | _ => False
  end.

Definition row_latency_consistent (row : Sample) : Prop :=
  latency_consistent (ping row, jitter row, packet_loss row).

(** A string without its last character. *)
Fixpoint drop_last (s : string) : string :=
  match s with
  | EmptyString => EmptyString
  | String c EmptyString => EmptyString
  | String c s' => String c (drop_last s')
  end.

(** The disk holds the series of the monitor. *)
Definition in_sync (w : World) : Prop :=
  files w (log_file (monitor w)) = Some (reloaded (df (monitor w))).

(** What a cell keeps through the log file: a number is kept, a [None]
    comes back as [None] or as NaN. *)
Definition cell_survives (before after : option float) : Prop :=
  match before with
  | Some x => after = Some x
  | None => after = None \/ after = Some nan
  end.

(** What a row keeps through the log file. *)
Definition row_survives (before after : Sample) : Prop :=
  timestamp after = timestamp before
  /\ packet_loss after = packet_loss before
  /\ cell_survives (download_speed before) (download_speed after)
  /\ cell_survives (upload_speed before) (upload_speed after)
  /\ cell_survives (ping before) (ping after)
  /\ cell_survives (jitter before) (jitter after).

(** The arithmetic mean and the sample variance of a list of fractions, as
    the textbook has them: the sum over the number of values, and the sum
    of the squared deviations from the mean over that number less one. *)
Definition total (qs : list Q) : Q := fold_right Qplus 0%Q qs.

Definition arithmetic_mean (qs : list Q) : Q :=
  (total qs / inject_Z (Z.of_nat (List.length qs)))%Q.

Definition sample_variance (qs : list Q) : Q :=
  (total (map (fun q => (q - arithmetic_mean qs) * (q - arithmetic_mean qs)) qs)
   / inject_Z (Z.of_nat (List.length qs) - 1))%Q.

(** The square root of a fraction as a float, rounded once. *)
Definition float_sqrt (v : Q) : Exc float :=
  float_sqrt_of_frac (Qnum (Qred v)) (Zpos (Qden (Qred v))).

(** The three latency fields of a row. *)
Definition latency_of (row : Sample) : PingResult :=
  (ping row, jitter row, packet_loss row).

(** Two iterations in which the platform is the same and [ping] answers the
    same. *)
Definition same_ping_inputs (env1 env2 : TickEnv) : Prop :=
  platform_system env1 = platform_system env2
  /\ subprocess_run env1 (tick_ping_cmd env1)
     = subprocess_run env2 (tick_ping_cmd env2).

Module Inputs.

(** The start of a reply line of the [ping] of Linux, up to [time=]. *)
Definition linux_reply_head : string :=
  "64 bytes from 8.8.8.8: icmp_seq=1 ttl=117 ".

(** The start of a reply line of the [ping] of Windows, up to [time=]. *)
Definition windows_reply_head : string :=
  "Reply from 8.8.8.8: bytes=32 ".

(** A disk on which the log file holds one row. *)
Definition one_row : Sample :=
  {| timestamp := 0; download_speed := None; upload_speed := None;
     ping := Some 10%float; packet_loss := 0%float; jitter := Some 0%float |}.

Definition disk_with_log : FileSystem :=
  write_file Samples.no_files "internet_stats.parquet" [one_row].

(** An iteration whose write of the log file fails. *)
Definition env_disk_full (t : float) : TickEnv :=
  {| timestamp_now := 0;
     time_time := t;
     speedtest_reply := Samples.speedtest_ok;
     platform_system := "linux";
     subprocess_run := Samples.finished 0 Samples.linux_three_replies;
     to_parquet := Raise (OtherError "OSError") |}.

Definition env_ok (t : float) : TickEnv :=
  Samples.env_at t Samples.speedtest_ok
    (Samples.finished 0 Samples.linux_three_replies).

(** The exact values of 10.0, 12.0 and 14.0. *)
Definition three_times_exact : list Q :=
  Eval vm_compute in
    match exact_ratios [10; 12; 14]%float with
    | Some qs => qs
    | None => []
    end.

(** Two replies whose times are finite and of opposite signs, near the
    largest float. *)
Definition huge_swings : string :=
  Samples.text
    ["64 bytes from 8.8.8.8: icmp_seq=1 ttl=117 time=1.7e308 ms";
     "64 bytes from 8.8.8.8: icmp_seq=2 ttl=117 time=-1.7e308 ms"].

(** The same [ping] output at a tick with another clock and no network for
    the speed test. *)
Definition env_offline (t : float) : TickEnv :=
  Samples.env_at t Samples.speedtest_offline
    (Samples.finished 0 Samples.linux_three_replies).

End Inputs.

(** * Properties *)

(** ** Events *)

Lemma speedtest_attempts_app (a b : list Event) :
  speedtest_attempts (a ++ b) = speedtest_attempts a ++ speedtest_attempts b.
Proof.
  induction a as [|ev a IH]; simpl; [reflexivity|].
  destruct ev; simpl; rewrite IH; reflexivity.
Qed.

Lemma displayed_totals_app (a b : list Event) :
  displayed_totals (a ++ b) = displayed_totals a ++ displayed_totals b.
Proof.
  induction a as [|ev a IH]; simpl; [reflexivity|].
  destruct ev; simpl; rewrite IH; reflexivity.
Qed.

Lemma cooldown_after_success_app interval since (a b : list (float * bool)) :
  cooldown_after_success interval since (a ++ b)
  = cooldown_after_success interval since a
    && cooldown_after_success interval (latest_success since a) b.
Proof.
  revert since; induction a as [|[t ok] a IH]; intros since; simpl.
  - reflexivity.
  - rewrite IH, andb_assoc. reflexivity.
Qed.

Lemma latest_success_app since (a b : list (float * bool)) :
  latest_success since (a ++ b) = latest_success (latest_success since a) b.
Proof.
  revert since; induction a as [|[t ok] a IH]; intros since; simpl; auto.
Qed.

(** ** [measure_speed] *)

(** The three return paths of [measure_speed]: before the [try] block, at
    its end, and in its handler. *)
Ltac measure_speed_paths :=
  unfold measure_speed, too_early, completes;
  destruct (_ <? _)%float; [reflexivity|];
  destruct (speed_test _) as [[? ?]|?]; reflexivity.

(** The two return paths of [ping_command]. *)
Ltac ping_command_paths :=
  unfold ping_command;
  destruct (ping_attempt _ _ _ _); reflexivity.

Lemma measure_speed_monitor self t st :
  snd (fst (measure_speed self t st))
  = if too_early (speed_test_interval self) (last_speed_test self) t then self
    else if completes st then set_last_speed_test self t else self.
Proof. measure_speed_paths. Qed.

Lemma measure_speed_attempts self t st :
  speedtest_attempts (snd (measure_speed self t st))
  = if too_early (speed_test_interval self) (last_speed_test self) t then []
    else [(t, completes st)].
Proof. measure_speed_paths. Qed.

Lemma measure_speed_displays self t st :
  displayed_totals (snd (measure_speed self t st)) = [].
Proof. measure_speed_paths. Qed.

Lemma measure_speed_paired self t st :
  paired (fst (fst (fst (measure_speed self t st))))
         (snd (fst (fst (measure_speed self t st)))) = true.
Proof. measure_speed_paths. Qed.

(** ** [ping_command] *)

Lemma ping_command_monitor self system run host count :
  snd (fst (ping_command self system run host count)) = self.
Proof. ping_command_paths. Qed.

Lemma ping_command_result self system run host count :
  fst (fst (ping_command self system run host count))
  = match ping_attempt system run host count with
    | Ok r => r
    | Raise _ => ping_failed
    end.
Proof. ping_command_paths. Qed.

Lemma ping_command_attempts self system run host count :
  speedtest_attempts (snd (ping_command self system run host count)) = [].
Proof. ping_command_paths. Qed.

Lemma ping_command_displays self system run host count :
  displayed_totals (snd (ping_command self system run host count)) = [].
Proof. ping_command_paths. Qed.

(** ** [collect_metrics] *)

Lemma collect_metrics_unfold self env :
  collect_metrics self env
  = (append_row (snd (fst (measure_speed self (time_time env) (speedtest_reply env))))
                (new_row_of self env),
     snd (measure_speed self (time_time env) (speedtest_reply env))
     ++ snd (ping_command
               (snd (fst (measure_speed self (time_time env) (speedtest_reply env))))
               (platform_system env) (subprocess_run env) "8.8.8.8" 3)).
Proof.
  unfold collect_metrics, new_row_of.
  destruct (measure_speed self (time_time env) (speedtest_reply env))
    as [[[download upload] self1] ev1] eqn:Hm; simpl.
  pose proof (ping_command_monitor self1 (platform_system env)
                (subprocess_run env) "8.8.8.8" 3) as Hself.
  destruct (ping_command self1 (platform_system env) (subprocess_run env)
              "8.8.8.8" 3) as [[[[ping jitter] loss] self2] ev2] eqn:Hp.
  simpl in *. subst self2. reflexivity.
Qed.

Lemma collect_metrics_df self env :
  df (fst (collect_metrics self env)) = df self ++ [new_row_of self env].
Proof.
  rewrite collect_metrics_unfold; simpl.
  rewrite measure_speed_monitor.
  destruct (too_early _ _ _); [reflexivity|].
  destruct (completes _); reflexivity.
Qed.

Lemma collect_metrics_log_count self env :
  log_count (fst (collect_metrics self env)) = log_count self + 1.
Proof.
  rewrite collect_metrics_unfold; simpl.
  rewrite measure_speed_monitor.
  destruct (too_early _ _ _); [reflexivity|].
  destruct (completes _); reflexivity.
Qed.

Lemma collect_metrics_interval self env :
  speed_test_interval (fst (collect_metrics self env)) = speed_test_interval self.
Proof.
  rewrite collect_metrics_unfold; simpl.
  rewrite measure_speed_monitor.
  destruct (too_early _ _ _); [reflexivity|].
  destruct (completes _); reflexivity.
Qed.

Lemma collect_metrics_attempts self env :
  speedtest_attempts (snd (collect_metrics self env))
  = speedtest_attempts (snd (measure_speed self (time_time env) (speedtest_reply env))).
Proof.
  rewrite collect_metrics_unfold; simpl.
  rewrite speedtest_attempts_app, ping_command_attempts, app_nil_r.
  reflexivity.
Qed.

Lemma collect_metrics_last_speed_test self env :
  last_speed_test (fst (collect_metrics self env))
  = latest_success (last_speed_test self)
                   (speedtest_attempts (snd (collect_metrics self env))).
Proof.
  rewrite collect_metrics_attempts, measure_speed_attempts.
  rewrite collect_metrics_unfold; simpl.
  rewrite measure_speed_monitor.
  destruct (too_early _ _ _); [reflexivity|].
  destruct (completes _); reflexivity.
Qed.

Lemma collect_metrics_cooldown self env :
  cooldown_after_success (speed_test_interval self) (last_speed_test self)
    (speedtest_attempts (snd (collect_metrics self env))) = true.
Proof.
  rewrite collect_metrics_attempts, measure_speed_attempts.
  destruct (too_early _ _ _) eqn:Hearly; simpl; [reflexivity|].
  rewrite Hearly. reflexivity.
Qed.

Lemma collect_metrics_displays self env :
  displayed_totals (snd (collect_metrics self env)) = [].
Proof.
  rewrite collect_metrics_unfold; simpl.
  rewrite displayed_totals_app, measure_speed_displays, ping_command_displays.
  reflexivity.
Qed.

(** ** One iteration of the loop *)

Lemma latest_row_snoc (rows : DataFrame) (row : Sample) :
  latest_row (rows ++ [row]) = Some row.
Proof. unfold latest_row. rewrite rev_unit. reflexivity. Qed.

Lemma tick_monitor env w :
  monitor (fst (tick env w)) = fst (collect_metrics (monitor w) env).
Proof.
  unfold tick.
  destruct (collect_metrics (monitor w) env) as [self1 ev1].
  destruct (save_stats self1 (to_parquet env) (files w)) as [[fs1 ev3] status].
  reflexivity.
Qed.

Lemma tick_status env w :
  snd (tick env w)
  = match to_parquet env with Ok _ => Running | Raise e => Died e end.
Proof.
  unfold tick.
  destruct (collect_metrics (monitor w) env) as [self1 ev1].
  unfold save_stats. destruct (to_parquet env); reflexivity.
Qed.

Lemma tick_events env w :
  exists new,
    events (fst (tick env w)) = events w ++ new
    /\ speedtest_attempts new
       = speedtest_attempts (snd (collect_metrics (monitor w) env))
    /\ displayed_totals new = [log_count (monitor w) + 1].
Proof.
  unfold tick.
  pose proof (collect_metrics_df (monitor w) env) as Hdf.
  pose proof (collect_metrics_log_count (monitor w) env) as Hcount.
  pose proof (collect_metrics_displays (monitor w) env) as Hshow.
  destruct (collect_metrics (monitor w) env) as [self1 ev1]; simpl in *.
  unfold print_latest_stats. rewrite Hdf, latest_row_snoc, Hcount.
  unfold save_stats.
  destruct (to_parquet env) as [u|e]; simpl;
    eexists; (split; [reflexivity|]);
    rewrite !speedtest_attempts_app, !displayed_totals_app, Hshow; simpl;
    rewrite ?app_nil_r; split; reflexivity.
Qed.

(** ** Runs of the loop *)

Lemma tick_summary env w :
  exists new,
    run_summary w (fst (tick env w)) [new_row_of (monitor w) env] new.
Proof.
  destruct (tick_events env w) as (new & Hev & Hatt & Hshow).
  exists new. split.
  - rewrite tick_monitor. apply collect_metrics_df.
  - exact Hev.
  - rewrite tick_monitor, collect_metrics_log_count. reflexivity.
  - rewrite tick_monitor. apply collect_metrics_interval.
  - rewrite tick_monitor, Hatt. apply collect_metrics_last_speed_test.
  - rewrite Hatt. apply collect_metrics_cooldown.
  - rewrite Hshow. simpl. reflexivity.
  - simpl. unfold row_paired, new_row_of; simpl.
    rewrite measure_speed_paired. reflexivity.
Qed.

Lemma map_seq_offset {A : Type} (f : nat -> A) (n : nat) : forall k a,
  map f (seq (n + a) k) = map (fun i => f (n + i)%nat) (seq a k).
Proof.
  induction k as [|k IH]; intros a; simpl; [reflexivity|].
  f_equal. rewrite <- IH. do 2 f_equal. lia.
Qed.

Lemma run_summary_refl w : run_summary w w [] [].
Proof.
  split; simpl; rewrite ?app_nil_r, ?Z.add_0_r; reflexivity.
Qed.

Lemma run_summary_trans w1 w2 w3 rows1 rows2 new1 new2 :
  run_summary w1 w2 rows1 new1 ->
  run_summary w2 w3 rows2 new2 ->
  run_summary w1 w3 (rows1 ++ rows2) (new1 ++ new2).
Proof.
  intros [Hdf1 Hev1 Hc1 Hi1 Hl1 Hcd1 Hs1 Hp1] [Hdf2 Hev2 Hc2 Hi2 Hl2 Hcd2 Hs2 Hp2].
  split.
  - rewrite Hdf2, Hdf1, app_assoc. reflexivity.
  - rewrite Hev2, Hev1, app_assoc. reflexivity.
  - rewrite Hc2, Hc1, length_app. lia.
  - congruence.
  - rewrite speedtest_attempts_app, latest_success_app, <- Hl1. exact Hl2.
  - rewrite speedtest_attempts_app, cooldown_after_success_app, Hcd1.
    rewrite <- Hl1, <- Hi1. exact Hcd2.
  - rewrite displayed_totals_app, Hs1, Hs2, length_app, seq_app, map_app.
    f_equal.
    replace (1 + List.length rows1)%nat with (List.length rows1 + 1)%nat by lia.
    rewrite Hc1, map_seq_offset.
    apply map_ext; intros i. lia.
  - rewrite forallb_app, Hp1, Hp2. reflexivity.
Qed.

(** Every run has a summary, and as many rows as iterations when no write
    failed. *)
Lemma run_ticks_summary envs : forall w,
  exists rows new,
    run_summary w (fst (run_ticks envs w)) rows new
    /\ (List.length rows <= List.length envs)%nat
    /\ (snd (run_ticks envs w) = Running -> List.length rows = List.length envs).
Proof.
  induction envs as [|env rest IH]; intros w; simpl.
  - exists [], []. split; [apply run_summary_refl|]. split; reflexivity.
  - destruct (tick_summary env w) as (new1 & Hsum1).
    pose proof (tick_status env w) as Hst.
    destruct (tick env w) as [w1 status]; simpl in *.
    destruct status as [|e].
    + destruct (IH w1) as (rows & new & Hsum & Hle & Hlen).
      exists (new_row_of (monitor w) env :: rows), (new1 ++ new).
      split; [|split].
      * exact (run_summary_trans _ _ _ _ _ _ _ Hsum1 Hsum).
      * simpl. lia.
      * intros Hrun. simpl. rewrite (Hlen Hrun). reflexivity.
    + exists [new_row_of (monitor w) env], new1.
      split; [|split].
      * exact Hsum1.
      * simpl. lia.
      * discriminate.
Qed.

Lemma main_monitor fs envs last_write :
  monitor (fst (main fs envs last_write))
  = monitor (fst (run_ticks envs (start "internet_stats.parquet" 300 fs))).
Proof.
  unfold main. fold (start "internet_stats.parquet" 300 fs).
  destruct (run_ticks envs (start "internet_stats.parquet" 300 fs))
    as [w [|e]]; [|reflexivity].
  destruct (save_stats (monitor w) last_write (files w)) as [[fs1 ev] status].
  reflexivity.
Qed.

(** A run goes through all its iterations when every write succeeds. *)
Lemma run_ticks_running envs : forall w,
  forallb (fun env => negb (raises (to_parquet env))) envs = true ->
  snd (run_ticks envs w) = Running.
Proof.
  induction envs as [|env rest IH]; intros w Hall; simpl in *.
  - reflexivity.
  - apply andb_true_iff in Hall as [Hw Hrest].
    pose proof (tick_status env w) as Hst.
    destruct (tick env w) as [w1 status]; simpl in *.
    destruct (to_parquet env); [|discriminate].
    subst status. apply IH, Hrest.
Qed.

(** ** The throughput probe and its cooldown *)

(** C1, as amended.  For every tick sequence, the throughput probe is never
    invoked less than the configured interval after the latest invocation
    that completed (or after the initial timestamp): the timestamp in the
    scheduler state advances to the clock reading of every invocation of
    [measure_speed] whose probe completes, and an invocation that ends in
    failure leaves it as it was. *)
Theorem C1_cooldown_after_completed_speed_test :
  forall (envs : list TickEnv) (w : World) (self : InternetMonitor)
         (t : float) (st : Speedtest),
    (exists new,
        events (fst (run_ticks envs w)) = events w ++ new
        /\ cooldown_after_success (speed_test_interval (monitor w))
             (last_speed_test (monitor w)) (speedtest_attempts new) = true
        /\ last_speed_test (monitor (fst (run_ticks envs w)))
           = latest_success (last_speed_test (monitor w)) (speedtest_attempts new))
    /\ speedtest_attempts (snd (measure_speed self t st))
       = (if too_early (speed_test_interval self) (last_speed_test self) t
          then [] else [(t, completes st)])
    /\ last_speed_test (snd (fst (measure_speed self t st)))
       = (if too_early (speed_test_interval self) (last_speed_test self) t
          then last_speed_test self
          else if completes st then t else last_speed_test self).
Proof.
  intros envs w self t st. split; [|split].
  - destruct (run_ticks_summary envs w) as (rows & new & Hsum & _ & _).
    exists new. destruct Hsum. auto.
  - apply measure_speed_attempts.
  - rewrite measure_speed_monitor.
    destruct (too_early _ _ _); [reflexivity|].
    destruct (completes st); reflexivity.
Qed.

(** C1 as stated fails: with the network down the probe is attempted at two
    successive ticks, one second apart, and the timestamp stays at [0]. *)
Lemma C1_failed_attempt_is_retried_at_next_tick :
  let envs := [Samples.env_at 1700000000 Samples.speedtest_offline Samples.no_ping;
               Samples.env_at 1700000001 Samples.speedtest_offline Samples.no_ping] in
  let w := fst (run_ticks envs (start "internet_stats.parquet" 300 Samples.no_files)) in
  speedtest_attempts (events w)
  = [(1700000000%float, false); (1700000001%float, false)]
  /\ too_early 300 1700000000 1700000001 = true
  /\ cooldown_after_attempt 300 0 (speedtest_attempts (events w)) = false
  /\ last_speed_test (monitor w) = 0%float
  /\ last_speed_test
       (snd (fst (measure_speed Samples.fresh 1700000000 Samples.speedtest_offline)))
     = 0%float.
Proof. vm_compute. repeat split. Qed.

(** C6, as amended.  At a tick where less than the configured interval has
    passed since the recorded timestamp [last_speed_test], the clock reading
    of the last throughput test that completed ([0] at first),
    [measure_speed] returns [(None, None)], leaves the monitor as it was and
    does nothing to the outside world: the probe is not invoked, whatever it
    would have answered. *)
Theorem C6_no_probe_within_interval :
  forall (self : InternetMonitor) (current_time : float) (st : Speedtest),
    too_early (speed_test_interval self) (last_speed_test self) current_time = true ->
    measure_speed self current_time st = ((None, None), self, []).
Proof.
  intros self current_time st Hearly.
  unfold measure_speed. unfold too_early in Hearly. rewrite Hearly. reflexivity.
Qed.

Lemma C6_one_second_after_a_speed_test :
  let self := set_last_speed_test Samples.fresh 1700000000 in
  too_early (speed_test_interval self) (last_speed_test self) 1700000001 = true
  /\ measure_speed self 1700000001 Samples.speedtest_ok = ((None, None), self, []).
Proof.
  split; [reflexivity|].
  apply C6_no_probe_within_interval. reflexivity.
Defined.

(** C6 as stated fails: the time is counted from the last test that
    completed, not from the last attempt.  One second after an attempt that
    failed, the probe is invoked again and returns its two speeds. *)
Lemma C6_probe_runs_one_second_after_a_failed_attempt :
  let first := measure_speed Samples.fresh 1700000000 Samples.speedtest_offline in
  let self1 := snd (fst first) in
  speedtest_attempts (snd first) = [(1700000000%float, false)]
  /\ too_early (speed_test_interval self1) 1700000000 1700000001 = true
  /\ measure_speed self1 1700000001 Samples.speedtest_ok
     = ((Some 50%float, Some 10%float),
        set_last_speed_test self1 1700000001,
        [SpeedtestInvoked 1700000001 true]).
Proof. vm_compute. repeat split. Qed.

(** C8.  Every return path of [measure_speed] yields two speeds or
    [(None, None)], also when the download succeeds and the upload fails;
    so the two speed fields of every appended Sample are both present or
    both absent. *)
Theorem C8_speeds_present_or_absent_together :
  forall (self : InternetMonitor) (t d : float) (e : exn) (st : Speedtest)
         (env : TickEnv) (envs : list TickEnv) (w : World),
    paired (fst (fst (fst (measure_speed self t st))))
           (snd (fst (fst (measure_speed self t st)))) = true
    /\ fst (fst (measure_speed self t
                   {| st_new := Ok tt; st_download := Ok d; st_upload := Raise e |}))
       = (None, None)
    /\ row_paired (new_row_of self env) = true
    /\ exists rows,
        df (monitor (fst (run_ticks envs w))) = df (monitor w) ++ rows
        /\ forallb row_paired rows = true.
Proof.
  intros self t d e st env envs w. repeat split.
  - apply measure_speed_paired.
  - unfold measure_speed. destruct (_ <? _)%float; reflexivity.
  - unfold row_paired, new_row_of; simpl. apply measure_speed_paired.
  - destruct (run_ticks_summary envs w) as (rows & new & Hsum & _ & _).
    exists rows. destruct Hsum. auto.
Qed.

(** ** The series *)

(** C5.  A run of N ticks, none of them interrupted, from a series of length
    L leaves a series of length L + N: the old rows are still there, in
    place, followed by one new row per tick. *)
Theorem C5_one_row_per_tick :
  forall (envs : list TickEnv) (w : World),
    snd (run_ticks envs w) = Running ->
    (exists rows,
        df (monitor (fst (run_ticks envs w))) = df (monitor w) ++ rows
        /\ List.length rows = List.length envs)
    /\ List.length (df (monitor (fst (run_ticks envs w))))
       = (List.length (df (monitor w)) + List.length envs)%nat
    /\ (forall env w0,
           df (monitor (fst (tick env w0)))
           = df (monitor w0) ++ [new_row_of (monitor w0) env])
    /\ forall fs last_write,
        w = start "internet_stats.parquet" 300 fs ->
        List.length (df (monitor (fst (main fs envs last_write))))
        = (List.length (match fs "internet_stats.parquet" with
                        | Some loaded => loaded
                        | None => []
                        end)
           + List.length envs)%nat.
Proof.
  intros envs w Hrun.
  destruct (run_ticks_summary envs w) as (rows & new & Hsum & _ & Hlen).
  destruct Hsum as [Hdf _ _ _ _ _ _ _].
  specialize (Hlen Hrun).
  assert (Hgrow : List.length (df (monitor (fst (run_ticks envs w))))
                  = (List.length (df (monitor w)) + List.length envs)%nat).
  { rewrite Hdf, length_app, Hlen. reflexivity. }
  split; [|split; [|split]].
  - exists rows. auto.
  - exact Hgrow.
  - intros env w0. rewrite tick_monitor. apply collect_metrics_df.
  - intros fs last_write ->.
    rewrite main_monitor, Hgrow. unfold start, init; simpl.
    destruct (fs "internet_stats.parquet"); reflexivity.
Qed.

Lemma C5_two_ticks_two_rows :
  let envs := [Samples.env_at 1700000000 Samples.speedtest_ok
                 (Samples.finished 0 Samples.linux_three_replies);
               Samples.env_at 1700000001 Samples.speedtest_ok
                 (Samples.finished 1 Samples.linux_no_reply)] in
  let w := start "internet_stats.parquet" 300 Samples.no_files in
  snd (run_ticks envs w) = Running
  /\ (exists rows,
         df (monitor (fst (run_ticks envs w))) = df (monitor w) ++ rows
         /\ List.length rows = List.length envs)
  /\ List.length (df (monitor (fst (run_ticks envs w)))) = 2%nat.
Proof.
  split; [vm_compute; reflexivity|].
  pose proof (C5_one_row_per_tick
                [Samples.env_at 1700000000 Samples.speedtest_ok
                   (Samples.finished 0 Samples.linux_three_replies);
                 Samples.env_at 1700000001 Samples.speedtest_ok
                   (Samples.finished 1 Samples.linux_no_reply)]
                (start "internet_stats.parquet" 300 Samples.no_files)
                ltac:(vm_compute; reflexivity)) as (Hrows & Hlen & _).
  split; [exact Hrows | exact Hlen].
Defined.

(** C10.  [log_count] equals the length of the series: at construction it
    is the length of the loaded series ([0] when there is no file), every
    [collect_metrics] adds one to it and one row to the series, and the
    totals that the console shows after the ticks of a run are L + 1,
    L + 2, ... for a loaded series of length L. *)
Theorem C10_log_count_is_series_length :
  forall (path : string) (interval : float) (fs : FileSystem)
         (envs : list TickEnv) (self : InternetMonitor) (env : TickEnv),
    let w0 := start path interval fs in
    let w' := fst (run_ticks envs w0) in
    log_count (monitor w0) = Z.of_nat (List.length (df (monitor w0)))
    /\ df (monitor w0) = match fs path with Some rows => rows | None => [] end
    /\ (log_count (fst (collect_metrics self env)) = log_count self + 1
        /\ List.length (df (fst (collect_metrics self env)))
           = S (List.length (df self)))
    /\ log_count (monitor w') = Z.of_nat (List.length (df (monitor w')))
    /\ displayed_totals (events w')
       = map (fun i => Z.of_nat (List.length (df (monitor w0)) + i))
             (seq 1 (List.length (df (monitor w')) - List.length (df (monitor w0)))).
Proof.
  intros path interval fs envs self env w0 w'.
  assert (H0 : log_count (monitor w0) = Z.of_nat (List.length (df (monitor w0)))).
  { unfold w0, start, init; simpl. destruct (fs path); reflexivity. }
  split; [exact H0|]. split.
  { unfold w0, start, init; simpl. destruct (fs path); reflexivity. }
  split.
  { split; [apply collect_metrics_log_count|].
    rewrite collect_metrics_df, length_app. simpl. lia. }
  destruct (run_ticks_summary envs w0) as (rows & new & Hsum & _ & _).
  fold w' in Hsum. destruct Hsum as [Hdf Hev Hcount _ _ _ Hshow _].
  split.
  - rewrite Hcount, H0, Hdf, length_app. lia.
  - rewrite Hev, Hdf, length_app.
    change (events w0) with (@nil Event). rewrite app_nil_l.
    replace (List.length (df (monitor w0)) + List.length rows
             - List.length (df (monitor w0)))%nat
      with (List.length rows) by lia.
    rewrite Hshow, H0. apply map_ext; intros i. lia.
Qed.

(** ** The latency parser *)

Lemma comprehension_raises {A B : Type} (f : A -> Exc B) (xs : list A) (x : A) :
  In x xs -> raises (f x) = true -> raises (comprehension f xs) = true.
Proof.
  induction xs as [|y rest IH]; intros Hin Hx; [contradiction|].
  simpl. destruct Hin as [->|Hin].
  - destruct (f x); [discriminate|reflexivity].
  - destruct (f y); [|reflexivity]. simpl.
    specialize (IH Hin Hx).
    destruct (comprehension f rest); [discriminate|reflexivity].
Qed.

Lemma comprehension_none_valid {A B : Type} (f : A -> Exc B) (xs : list A) :
  (forall x, In x xs -> raises (f x) = true) ->
  comprehension f xs = Ok [] \/ raises (comprehension f xs) = true.
Proof.
  destruct xs as [|x rest]; intros Hall; [left; reflexivity|right].
  apply comprehension_raises with (x := x); [left; reflexivity|].
  apply Hall. left. reflexivity.
Qed.

Lemma ping_attempt_finished system run host count result :
  run (ping_cmd system host count) = Ok result ->
  ping_attempt system run host count = parse_ping system count result.
Proof. unfold ping_attempt. intros ->. reflexivity. Qed.

(** What [ping_command] makes of a batch whose lines all parse. *)
Lemma ping_command_parsed self system run host count result times :
  run (ping_cmd system host count) = Ok result ->
  returncode result = 0 ->
  parse_times system (stdout result) = Ok times ->
  times <> [] ->
  fst (fst (ping_command self system run host count))
  = match metrics_of times count with
    | Ok r => r
    | Raise _ => ping_failed
    end.
Proof.
  intros Hrun Hrc Htimes Hne.
  rewrite ping_command_result, (ping_attempt_finished _ _ _ _ _ Hrun).
  unfold parse_ping. rewrite Hrc, Htimes. simpl.
  destruct times; [contradiction|reflexivity].
Qed.

Lemma ping_command_unavailable self system run host count :
  latency_unavailable system run host count ->
  fst (fst (ping_command self system run host count)) = ping_failed.
Proof.
  unfold latency_unavailable. intros Hbad.
  rewrite ping_command_result. unfold ping_attempt.
  destruct (run (ping_cmd system host count)) as [result|e]; [|reflexivity].
  simpl. unfold parse_ping.
  destruct (returncode result =? 0) eqn:Hrc; [|reflexivity].
  destruct Hbad as [Hne|Hnone]; [apply Z.eqb_eq in Hrc; contradiction|].
  unfold parse_times.
  destruct (comprehension_none_valid _ _ Hnone) as [-> | Hraise]; [reflexivity|].
  destruct (comprehension _ _); [discriminate|reflexivity].
Qed.

(** ** Division of an integer by itself *)

Lemma div_eucl_mul (p : positive) (k : Z) :
  Z.div_eucl (Zpos p * k) (Zpos p) = (k, 0).
Proof.
  pose proof (Z.div_mul k (Zpos p) ltac:(lia)) as Hq.
  pose proof (Z.mod_mul k (Zpos p) ltac:(lia)) as Hr.
  unfold Z.div, Z.modulo in Hq, Hr.
  rewrite (Z.mul_comm (Zpos p) k).
  destruct (Z.div_eucl (k * Zpos p) (Zpos p)) as [q r]; simpl in *.
  congruence.
Qed.

Lemma round_ratio_self (p : positive) :
  round_ratio (Zpos p) (Zpos p) = S754_finite false 4503599627370496 (-52).
Proof.
  unfold round_ratio, Z2SF, SFdiv, SFdiv_core_binary.
  replace (Zdigits2 (Zpos p) + 0 - (Zdigits2 (Zpos p) + 0)) with 0 by lia.
  change (Z.min (fexp prec emax 0) (0 - 0)) with (-53).
  change (0 - 0 - -53) with 53.
  cbv beta zeta iota.
  rewrite Z.shiftl_mul_pow2 by lia.
  rewrite div_eucl_mul.
  replace (new_location (Zpos p) 0) with loc_Exact.
  - vm_compute. reflexivity.
  - unfold new_location. destruct (Z.even (Zpos p)); reflexivity.
Qed.

Lemma int_truediv_self (n : Z) : 0 < n -> int_truediv n n = Ok 1%float.
Proof.
  intros Hn. destruct n as [|p|p]; try lia.
  unfold int_truediv. rewrite round_ratio_self. reflexivity.
Qed.

(** In exact arithmetic the source's formula and the specification's are one
    and the same number; in binary64 they are rounded at different places. *)
Remark packet_loss_formulas_agree_exactly (n count : Q) :
  ~ (count == 0)%Q ->
  (100 - n / count * 100 == 100 * (1 - n / count))%Q.
Proof. intros Hc. field. exact Hc. Qed.

(** C2, as amended.  For a batch that parses into a non-empty [times] and
    whose statistics are computed, with [count] probes requested, the
    returned packet loss is [100 - (len(times) / count * 100)] as binary64
    evaluates it, the quotient being rounded first; it is [0] when
    [len(times) = count] and [50] for two times out of four. *)
Theorem C2_packet_loss_of_a_parsed_batch :
  forall (self : InternetMonitor) (system : string)
         (run : list string -> Exc CompletedProcess) (host : string) (count : Z)
         (result : CompletedProcess) (times : list float) (avg jit ratio : float),
    run (ping_cmd system host count) = Ok result ->
    returncode result = 0 ->
    parse_times system (stdout result) = Ok times ->
    times <> [] ->
    mean times = Ok avg ->
    jitter_of times = Ok jit ->
    int_truediv (Z.of_nat (List.length times)) count = Ok ratio ->
    let loss := snd (fst (fst (ping_command self system run host count))) in
    loss = (100 - ratio * 100)%float
    /\ (Z.of_nat (List.length times) = count -> loss = 0%float)
    /\ (List.length times = 2%nat -> count = 4 -> loss = 50%float).
Proof.
  intros self system run host count result times avg jit ratio
         Hrun Hrc Htimes Hne Hmean Hjit Hdiv loss.
  assert (Hloss : loss = (100 - ratio * 100)%float).
  { unfold loss.
    rewrite (ping_command_parsed _ _ _ _ _ _ _ Hrun Hrc Htimes Hne).
    unfold metrics_of. rewrite Hmean, Hjit, Hdiv. reflexivity. }
  split; [exact Hloss|]. split.
  - intros Hlen. rewrite Hlen in Hdiv.
    rewrite int_truediv_self in Hdiv.
    + injection Hdiv as <-. rewrite Hloss. reflexivity.
    + rewrite <- Hlen. destruct times; [contradiction|]. simpl. lia.
  - intros Hlen Hcount. rewrite Hlen, Hcount in Hdiv.
    vm_compute in Hdiv. injection Hdiv as <-. rewrite Hloss. reflexivity.
Qed.

Lemma C2_two_of_four_is_fifty :
  snd (fst (fst (ping_command Samples.fresh "linux"
                   (Samples.finished 0 Samples.linux_two_of_four) "8.8.8.8" 4)))
  = 50%float.
Proof.
  refine (proj2 (proj2
    (C2_packet_loss_of_a_parsed_batch Samples.fresh "linux"
       (Samples.finished 0 Samples.linux_two_of_four) "8.8.8.8" 4
       {| returncode := 0; stdout := Samples.linux_two_of_four |}
       [10; 14]%float 12%float 0x1.6a09e667f3bcdp+1%float 0.5%float
       _ _ _ _ _ _ _)) _ _);
    try (vm_compute; reflexivity).
  discriminate.
Defined.

(** C2 as stated fails in the last place: with two replies out of the three
    probes of a tick the source returns 33.333333333333343
    ([0x1.0aaaaaaaaaaacp+5]) and [100 * (1 - 2/3)] is 33.333333333333336
    ([0x1.0aaaaaaaaaaabp+5]). *)
Lemma C2_two_of_three_differs_in_the_last_place :
  parse_times "windows" Samples.windows_two_replies = Ok [10; 12]%float
  /\ snd (fst (fst (ping_command Samples.fresh "windows"
                      (Samples.finished 0 Samples.windows_two_replies)
                      "8.8.8.8" 3)))
     = 0x1.0aaaaaaaaaaacp+5%float
  /\ spec_packet_loss 2 3 = Ok 0x1.0aaaaaaaaaaabp+5%float
  /\ (0x1.0aaaaaaaaaaacp+5 =? 0x1.0aaaaaaaaaaabp+5)%float = false.
Proof. vm_compute. repeat split. Qed.

(** ** The statistics of a batch *)

Lemma fold_left_Qplus (qs : list Q) : forall acc,
  (fold_left Qplus qs acc == acc + total qs)%Q.
Proof.
  induction qs as [|q qs IH]; intros acc; simpl.
  - ring.
  - rewrite IH. ring.
Qed.

Lemma Qsum_total (qs : list Q) : (Qsum qs == total qs)%Q.
Proof. unfold Qsum. rewrite fold_left_Qplus. ring. Qed.

Lemma exact_ratios_length (data : list float) : forall qs,
  exact_ratios data = Some qs -> List.length qs = List.length data.
Proof.
  induction data as [|x data IH]; simpl; intros qs Hqs.
  - injection Hqs as <-. reflexivity.
  - destruct (exact_ratio x); [|discriminate].
    destruct (exact_ratios data); [|discriminate].
    injection Hqs as <-. simpl. rewrite (IH _ eq_refl). reflexivity.
Qed.

Lemma float_of_fraction_compat (q q' : Q) :
  (q == q')%Q -> float_of_fraction q = float_of_fraction q'.
Proof.
  intros Heq. unfold float_of_fraction.
  rewrite (Qred_complete _ _ Heq). reflexivity.
Qed.

Lemma float_sqrt_compat (v v' : Q) :
  (v == v')%Q -> float_sqrt v = float_sqrt v'.
Proof.
  intros Heq. unfold float_sqrt.
  rewrite (Qred_complete _ _ Heq). reflexivity.
Qed.

(** [statistics.mean] is the arithmetic mean, rounded once. *)
Lemma mean_is_arithmetic_mean (times : list float) (qs : list Q) :
  times <> [] ->
  exact_ratios times = Some qs ->
  mean times = float_of_fraction (arithmetic_mean qs).
Proof.
  intros Hne Hqs. unfold mean. rewrite Hqs.
  replace (Z.of_nat (List.length times) <? 1) with false
    by (symmetry; apply Z.ltb_ge; destruct times; [contradiction|simpl; lia]).
  apply float_of_fraction_compat. unfold arithmetic_mean.
  rewrite (exact_ratios_length _ _ Hqs), Qsum_total. reflexivity.
Qed.

(** The squared deviations from any [c], expanded. *)
Lemma total_squared_deviations (c : Q) (qs : list Q) :
  (total (map (fun q => (q - c) * (q - c)) qs)
   == total (map (fun q => q * q) qs) - 2 * c * total qs
      + inject_Z (Z.of_nat (List.length qs)) * c * c)%Q.
Proof.
  induction qs as [|q qs IH].
  - simpl. ring.
  - simpl total. simpl List.length.
    rewrite IH, Nat2Z.inj_succ. unfold Z.succ. rewrite inject_Z_plus. ring.
Qed.

(** [statistics.stdev] is the square root, rounded once, of the sample
    variance. *)
Lemma stdev_is_sample_deviation (times : list float) (qs : list Q) :
  (2 <= List.length times)%nat ->
  exact_ratios times = Some qs ->
  stdev times = float_sqrt (sample_variance qs).
Proof.
  intros Hlen Hqs. unfold stdev. rewrite Hqs.
  replace (Z.of_nat (List.length times) <? 2) with false
    by (symmetry; apply Z.ltb_ge; lia).
  change (float_sqrt_of_frac (Qnum (Qred ?v)) (Zpos (Qden (Qred ?v))))
    with (float_sqrt v).
  apply float_sqrt_compat.
  unfold sample_variance, arithmetic_mean.
  rewrite total_squared_deviations.
  rewrite (exact_ratios_length _ _ Hqs), !Qsum_total.
  assert (Hn : ~ (inject_Z (Z.of_nat (List.length times)) == 0)%Q).
  { unfold Qeq. simpl. lia. }
  assert (Hn1 : ~ (inject_Z (Z.of_nat (List.length times) - 1) == 0)%Q).
  { unfold Qeq. simpl. lia. }
  field. split; assumption.
Qed.

(** C7, as amended.  For a batch that parses into a non-empty [times] of
    finite values, [qs] being their exact values, and for which the jitter
    and the ratio of the packet loss are computed: the returned ping is the
    arithmetic mean of the times, rounded once to binary64; the returned
    jitter is the square root, rounded once, of their sample variance (the
    sum of the squared deviations from the mean over their number less one)
    when there are at least two times, and [0] when there is one. *)
Theorem C7_ping_is_mean_and_jitter_is_stdev :
  forall (self : InternetMonitor) (system : string)
         (run : list string -> Exc CompletedProcess) (host : string) (count : Z)
         (result : CompletedProcess) (times : list float) (qs : list Q)
         (avg sd ratio : float),
    run (ping_cmd system host count) = Ok result ->
    returncode result = 0 ->
    parse_times system (stdout result) = Ok times ->
    times <> [] ->
    exact_ratios times = Some qs ->
    float_of_fraction (arithmetic_mean qs) = Ok avg ->
    ((2 <= List.length times)%nat -> float_sqrt (sample_variance qs) = Ok sd) ->
    int_truediv (Z.of_nat (List.length times)) count = Ok ratio ->
    fst (fst (ping_command self system run host count))
    = (Some avg,
       Some (if (2 <=? List.length times)%nat then sd else 0%float),
       (100 - ratio * 100)%float).
Proof.
  intros self system run host count result times qs avg sd ratio
         Hrun Hrc Htimes Hne Hqs Hmean Hsd Hdiv.
  rewrite (ping_command_parsed _ _ _ _ _ _ _ Hrun Hrc Htimes Hne).
  unfold metrics_of, jitter_of.
  rewrite (mean_is_arithmetic_mean _ _ Hne Hqs), Hmean.
  destruct (2 <=? List.length times)%nat eqn:Hlen.
  - apply Nat.leb_le in Hlen.
    replace (1 <? Z.of_nat (List.length times)) with true
      by (symmetry; apply Z.ltb_lt; lia).
    rewrite (stdev_is_sample_deviation _ _ Hlen Hqs), (Hsd Hlen).
    simpl. rewrite Hdiv. reflexivity.
  - apply Nat.leb_gt in Hlen.
    replace (1 <? Z.of_nat (List.length times)) with false
      by (symmetry; apply Z.ltb_ge; lia).
    simpl. rewrite Hdiv. reflexivity.
Qed.

Lemma C7_three_replies :
  fst (fst (ping_command Samples.fresh "linux"
              (Samples.finished 0 Samples.linux_three_replies) "8.8.8.8" 3))
  = (Some 12%float, Some 2%float, 0%float).
Proof.
  refine (C7_ping_is_mean_and_jitter_is_stdev Samples.fresh "linux"
            (Samples.finished 0 Samples.linux_three_replies) "8.8.8.8" 3
            {| returncode := 0; stdout := Samples.linux_three_replies |}
            [10; 12; 14]%float Inputs.three_times_exact
            12%float 2%float 1%float
            _ _ _ _ _ _ _ _);
    try (vm_compute; reflexivity).
  discriminate.
Defined.

(** C7 as stated fails: two finite times whose mean is [0.0] and whose
    standard deviation is too large for a float make [statistics.stdev]
    raise, and the ping is absent although the mean exists. *)
Lemma C7_mean_exists_but_ping_is_absent :
  parse_times "linux" Inputs.huge_swings
  = Ok [0x1.e42d130773b76p+1023; -0x1.e42d130773b76p+1023]%float
  /\ mean [0x1.e42d130773b76p+1023; -0x1.e42d130773b76p+1023]%float = Ok 0%float
  /\ stdev [0x1.e42d130773b76p+1023; -0x1.e42d130773b76p+1023]%float
     = Raise OverflowError
  /\ fst (fst (ping_command Samples.fresh "linux"
                 (Samples.finished 0 Inputs.huge_swings) "8.8.8.8" 3))
     = (None, None, 100%float).
Proof. vm_compute. repeat split. Qed.

(** A single reply gives a jitter of [0]. *)
Example one_reply_has_zero_jitter :
  fst (fst (ping_command Samples.fresh "linux"
              (Samples.finished 0 Samples.linux_one_reply) "8.8.8.8" 3))
  = (Some 10%float, Some 0%float, 0x1.0aaaaaaaaaaabp+6%float).
Proof. vm_compute. reflexivity. Qed.

(** C3, as amended.  When some line of the output of a successful [ping]
    holds [time=] followed by a token that [float] refuses, the error is
    caught by the handler of [ping_command]: whatever the other lines hold,
    the measurement is reported as failed, [(None, None, 100)], the failure
    is printed and the monitor is left as it was. *)
Theorem C3_unparsable_line_fails_the_measurement :
  forall (self : InternetMonitor) (system : string)
         (run : list string -> Exc CompletedProcess) (host : string) (count : Z)
         (result : CompletedProcess) (line : string),
    run (ping_cmd system host count) = Ok result ->
    returncode result = 0 ->
    In line (time_lines (stdout result)) ->
    raises (time_of_line system line) = true ->
    fst (ping_command self system run host count) = ((None, None, 100%float), self)
    /\ exists e,
        snd (ping_command self system run host count)
        = [PingInvoked (ping_cmd system host count); PrintedError "Ping failed" e].
Proof.
  intros self system run host count result line Hrun Hrc Hin Hbad.
  unfold ping_command.
  rewrite (ping_attempt_finished _ _ _ _ _ Hrun).
  unfold parse_ping, parse_times. rewrite Hrc. simpl.
  pose proof (comprehension_raises _ _ _ Hin Hbad) as Hraise.
  destruct (comprehension _ _) as [times|e]; [discriminate|].
  simpl. split; [reflexivity|]. exists e. reflexivity.
Qed.

Lemma C3_one_unparsable_line_of_three :
  fst (ping_command Samples.fresh "linux"
         (Samples.finished 0 Samples.linux_one_unparsable) "8.8.8.8" 3)
  = ((None, None, 100%float), Samples.fresh)
  /\ exists e,
      snd (ping_command Samples.fresh "linux"
             (Samples.finished 0 Samples.linux_one_unparsable) "8.8.8.8" 3)
      = [PingInvoked (ping_cmd "linux" "8.8.8.8" 3); PrintedError "Ping failed" e].
Proof.
  refine (C3_unparsable_line_fails_the_measurement Samples.fresh "linux"
            (Samples.finished 0 Samples.linux_one_unparsable) "8.8.8.8" 3
            {| returncode := 0; stdout := Samples.linux_one_unparsable |}
            Samples.unparsable_line _ _ _ _);
    try (vm_compute; reflexivity).
  vm_compute. right. left. reflexivity.
Defined.

(** C3 as stated fails: one line with the token [12.0ms] between two good
    lines makes the whole measurement fail, where dropping that line would
    have given the metrics of the two other round-trip times. *)
Lemma C3_one_bad_line_discards_the_good_ones :
  raises (time_of_line "linux" Samples.unparsable_line) = true
  /\ fst (fst (ping_command Samples.fresh "linux"
                 (Samples.finished 0 Samples.linux_one_unparsable) "8.8.8.8" 3))
     = (None, None, 100%float)
  /\ spec_ping "linux" 3 Samples.linux_one_unparsable
     = (Some 12%float, Some 0x1.6a09e667f3bcdp+1%float, 0x1.0aaaaaaaaaaacp+5%float)
  /\ fst (fst (ping_command Samples.fresh "linux"
                 (Samples.finished 0 Samples.linux_without_unparsable) "8.8.8.8" 3))
     = (Some 12%float, Some 0x1.6a09e667f3bcdp+1%float, 0x1.0aaaaaaaaaaacp+5%float).
Proof. vm_compute. repeat split. Qed.

(** C4.  When no valid round-trip time comes out of a latency measurement
    (the spawn raised, the exit status is not zero, or no line with [time=]
    parses), [ping_command] returns absent ping, absent jitter and a packet
    loss of [100] and leaves the monitor as it was; the tick appends a row
    with these values, and whether the loop goes on depends on the write of
    the log file alone. *)
Theorem C4_no_valid_time_is_full_loss :
  forall (system : string) (run : list string -> Exc CompletedProcess)
         (host : string) (count : Z) (self : InternetMonitor),
    latency_unavailable system run host count ->
    fst (fst (ping_command self system run host count)) = (None, None, 100%float)
    /\ snd (fst (ping_command self system run host count)) = self
    /\ forall (ts : Z) (t : float) (st : Speedtest) (wr : Exc unit) (w : World),
        host = "8.8.8.8" -> count = 3 ->
        let env := {| timestamp_now := ts; time_time := t; speedtest_reply := st;
                      platform_system := system; subprocess_run := run;
                      to_parquet := wr |} in
        (exists download upload,
            df (monitor (fst (tick env w)))
            = df (monitor w)
              ++ [{| timestamp := ts;
                     download_speed := download; upload_speed := upload;
                     ping := None; packet_loss := 100%float; jitter := None |}])
        /\ snd (tick env w)
           = match wr with Ok _ => Running | Raise e => Died e end.
Proof.
  intros system run host count self Hbad. split; [|split].
  - apply ping_command_unavailable, Hbad.
  - apply ping_command_monitor.
  - intros ts t st wr w -> -> env. split.
    + rewrite tick_monitor, collect_metrics_df.
      unfold new_row_of; simpl.
      rewrite (ping_command_unavailable _ _ _ _ _ Hbad). simpl.
      eexists _, _. reflexivity.
    + apply tick_status.
Qed.

Lemma C4_no_reply_from_the_host :
  let run := Samples.finished 1 Samples.linux_no_reply in
  latency_unavailable "linux" run "8.8.8.8" 3
  /\ fst (fst (ping_command Samples.fresh "linux" run "8.8.8.8" 3))
     = (None, None, 100%float).
Proof.
  assert (H : latency_unavailable "linux"
                (Samples.finished 1 Samples.linux_no_reply) "8.8.8.8" 3).
  { left. discriminate. }
  split; [exact H|].
  exact (proj1 (C4_no_valid_time_is_full_loss "linux"
                  (Samples.finished 1 Samples.linux_no_reply) "8.8.8.8" 3
                  Samples.fresh H)).
Defined.

(** The two other ways to no valid time: no [ping] executable, and an
    output of exit status zero without any [time=] line. *)
Example ping_unavailable_examples :
  fst (fst (ping_command Samples.fresh "linux" Samples.no_ping "8.8.8.8" 3))
  = (None, None, 100%float)
  /\ fst (fst (ping_command Samples.fresh "linux"
                 (Samples.finished 0 Samples.linux_no_reply) "8.8.8.8" 3))
     = (None, None, 100%float).
Proof. vm_compute. split; reflexivity. Qed.

(** * Further properties *)

(** ** More on events *)

Lemma ping_invocations_app (a b : list Event) :
  ping_invocations (a ++ b) = ping_invocations a ++ ping_invocations b.
Proof.
  induction a as [|ev a IH]; simpl; [reflexivity|].
  destruct ev; simpl; rewrite IH; reflexivity.
Qed.

Lemma displayed_rows_app (a b : list Event) :
  displayed_rows (a ++ b) = displayed_rows a ++ displayed_rows b.
Proof.
  induction a as [|ev a IH]; simpl; [reflexivity|].
  destruct ev; simpl; rewrite IH; reflexivity.
Qed.

Lemma saved_series_app (a b : list Event) :
  saved_series (a ++ b) = saved_series a ++ saved_series b.
Proof.
  induction a as [|ev a IH]; simpl; [reflexivity|].
  destruct ev; simpl; rewrite IH; reflexivity.
Qed.

Lemma measure_speed_quiet self t st :
  ping_invocations (snd (measure_speed self t st)) = []
  /\ displayed_rows (snd (measure_speed self t st)) = []
  /\ saved_series (snd (measure_speed self t st)) = [].
Proof.
  unfold measure_speed.
  destruct (_ <? _)%float; [repeat split|].
  destruct (speed_test st) as [[d u]|e]; repeat split.
Qed.

Lemma ping_command_trace self system run host count :
  ping_invocations (snd (ping_command self system run host count))
  = [ping_cmd system host count]
  /\ displayed_rows (snd (ping_command self system run host count)) = []
  /\ saved_series (snd (ping_command self system run host count)) = [].
Proof.
  unfold ping_command.
  destruct (ping_attempt system run host count); repeat split.
Qed.

Lemma collect_metrics_trace self env :
  ping_invocations (snd (collect_metrics self env)) = [tick_ping_cmd env]
  /\ displayed_rows (snd (collect_metrics self env)) = []
  /\ saved_series (snd (collect_metrics self env)) = [].
Proof.
  rewrite collect_metrics_unfold; simpl.
  rewrite ping_invocations_app, displayed_rows_app, saved_series_app.
  destruct (measure_speed_quiet self (time_time env) (speedtest_reply env))
    as (-> & -> & ->).
  destruct (ping_command_trace
              (snd (fst (measure_speed self (time_time env) (speedtest_reply env))))
              (platform_system env) (subprocess_run env) "8.8.8.8" 3)
    as (-> & -> & ->).
  repeat split.
Qed.

Lemma collect_metrics_log_file self env :
  log_file (fst (collect_metrics self env)) = log_file self.
Proof.
  rewrite collect_metrics_unfold; simpl.
  rewrite measure_speed_monitor.
  destruct (too_early _ _ _); [reflexivity|].
  destruct (completes _); reflexivity.
Qed.

(** ** More on one iteration *)

Lemma tick_trace env w :
  events (fst (tick env w))
  = events w ++ snd (collect_metrics (monitor w) env)
    ++ [Displayed (log_count (monitor w) + 1) (new_row_of (monitor w) env)]
    ++ match to_parquet env with
       | Ok _ =>
           [Saved (log_file (monitor w))
                  (df (monitor w) ++ [new_row_of (monitor w) env]);
            Slept 1]
       | Raise _ => []
       end.
Proof.
  unfold tick.
  pose proof (collect_metrics_df (monitor w) env) as Hdf.
  pose proof (collect_metrics_log_count (monitor w) env) as Hcount.
  pose proof (collect_metrics_log_file (monitor w) env) as Hfile.
  destruct (collect_metrics (monitor w) env) as [self1 ev1]; simpl in *.
  unfold print_latest_stats. rewrite Hdf, latest_row_snoc, Hcount.
  unfold save_stats. rewrite Hdf, Hfile.
  destruct (to_parquet env) as [u|e]; simpl; rewrite ?app_nil_r; reflexivity.
Qed.

Lemma tick_files env w :
  files (fst (tick env w))
  = match to_parquet env with
    | Ok _ => write_file (files w) (log_file (monitor w))
                         (df (monitor (fst (tick env w))))
    | Raise _ => files w
    end.
Proof.
  rewrite tick_monitor. unfold tick.
  pose proof (collect_metrics_log_file (monitor w) env) as Hfile.
  destruct (collect_metrics (monitor w) env) as [self1 ev1]; simpl in *.
  unfold save_stats. rewrite Hfile.
  destruct (to_parquet env); reflexivity.
Qed.

Lemma tick_log_file env w :
  log_file (monitor (fst (tick env w))) = log_file (monitor w).
Proof. rewrite tick_monitor. apply collect_metrics_log_file. Qed.

Lemma tick_df env w :
  df (monitor (fst (tick env w)))
  = df (monitor w) ++ [new_row_of (monitor w) env].
Proof. rewrite tick_monitor. apply collect_metrics_df. Qed.

(** ** More on runs *)

Lemma run_ticks_cons env rest w :
  run_ticks (env :: rest) w
  = match to_parquet env with
    | Ok _ => run_ticks rest (fst (tick env w))
    | Raise e => (fst (tick env w), Died e)
    end.
Proof.
  simpl. pose proof (tick_status env w) as Hst.
  destruct (tick env w) as [w1 status]; simpl in *.
  destruct (to_parquet env); subst status; reflexivity.
Qed.

(** Induction over the iterations of a run, with the world generalised. *)
Ltac run_induction envs :=
  let env := fresh "env" in
  let rest := fresh "rest" in
  let IH := fresh "IH" in
  let w := fresh "w" in
  induction envs as [|env rest IH]; intros w;
  [ simpl
  | rewrite ?run_ticks_cons; simpl executed;
    destruct (to_parquet env) eqn:?; simpl ].

Lemma run_ticks_executed envs : forall w,
  run_ticks (executed envs) w = run_ticks envs w.
Proof.
  induction envs as [|env rest IH]; intros w; [reflexivity|].
  simpl executed. rewrite !run_ticks_cons.
  destruct (to_parquet env); simpl; [apply IH|reflexivity].
Qed.

Lemma executed_running envs : forall w,
  snd (run_ticks envs w) = Running -> executed envs = envs.
Proof.
  run_induction envs; intros Hrun.
  - reflexivity.
  - f_equal. eapply IH, Hrun.
  - discriminate.
Qed.

Lemma run_ticks_log_file envs : forall w,
  log_file (monitor (fst (run_ticks envs w))) = log_file (monitor w).
Proof.
  run_induction envs.
  - reflexivity.
  - rewrite IH. apply tick_log_file.
  - apply tick_log_file.
Qed.

(** The rows, the spawned commands and the displays of a run, iteration by
    iteration. *)
Lemma run_ticks_trace envs : forall w,
  exists rows,
    df (monitor (fst (run_ticks envs w))) = df (monitor w) ++ rows
    /\ map timestamp rows = map timestamp_now (executed envs)
    /\ ping_invocations (events (fst (run_ticks envs w)))
       = ping_invocations (events w) ++ map tick_ping_cmd (executed envs)
    /\ displayed_rows (events (fst (run_ticks envs w)))
       = displayed_rows (events w) ++ rows
    /\ (List.length (speedtest_attempts (events (fst (run_ticks envs w))))
        <= List.length (speedtest_attempts (events w))
           + List.length (executed envs))%nat.
Proof.
  assert (Htick : forall env w,
    ping_invocations (events (fst (tick env w)))
    = ping_invocations (events w) ++ [tick_ping_cmd env]
    /\ displayed_rows (events (fst (tick env w)))
       = displayed_rows (events w) ++ [new_row_of (monitor w) env]
    /\ (List.length (speedtest_attempts (events (fst (tick env w))))
        <= List.length (speedtest_attempts (events w)) + 1)%nat).
  { intros env w. rewrite tick_trace.
    rewrite !ping_invocations_app, !displayed_rows_app, !speedtest_attempts_app.
    destruct (collect_metrics_trace (monitor w) env) as (-> & -> & _).
    rewrite collect_metrics_attempts, measure_speed_attempts.
    rewrite !length_app.
    destruct (to_parquet env); destruct (too_early _ _ _); simpl;
      repeat split; lia. }
  run_induction envs.
  - exists []. rewrite !app_nil_r. repeat split. lia.
  - destruct (IH (fst (tick env w))) as (rows & Hdf & Hts & Hping & Hshow & Hatt).
    destruct (Htick env w) as (Hp1 & Hs1 & Ha1).
    exists (new_row_of (monitor w) env :: rows).
    rewrite Hdf, Hping, Hshow, tick_df, Hp1, Hs1, <- !app_assoc. simpl.
    rewrite Hts. repeat split. lia.
  - destruct (Htick env w) as (Hp1 & Hs1 & Ha1).
    exists [new_row_of (monitor w) env].
    rewrite tick_df, Hp1, Hs1. simpl. repeat split. lia.
Qed.

(** The disk after a run: other paths are untouched, and after an iteration
    whose write succeeded the log file holds the series. *)
Lemma run_ticks_other_files envs : forall w p,
  p <> log_file (monitor w) ->
  files (fst (run_ticks envs w)) p = files w p.
Proof.
  assert (Htick : forall env w p, p <> log_file (monitor w) ->
                                  files (fst (tick env w)) p = files w p).
  { intros env w p Hp. rewrite tick_files.
    destruct (to_parquet env); [|reflexivity].
    unfold write_file. destruct (String.eqb_spec p (log_file (monitor w)));
      [contradiction|reflexivity]. }
  induction envs as [|env rest IH]; intros w p Hp; [reflexivity|].
  rewrite run_ticks_cons. destruct (to_parquet env); simpl.
  - rewrite IH; [apply Htick, Hp|]. rewrite tick_log_file. exact Hp.
  - apply Htick, Hp.
Qed.

Lemma tick_in_sync env w u :
  to_parquet env = Ok u -> in_sync (fst (tick env w)).
Proof.
  intros Hwrite. unfold in_sync.
  rewrite tick_files, Hwrite, tick_log_file. unfold write_file.
  rewrite String.eqb_refl. reflexivity.
Qed.

Lemma run_ticks_in_sync envs : forall w,
  snd (run_ticks envs w) = Running ->
  in_sync w \/ envs <> [] ->
  in_sync (fst (run_ticks envs w)).
Proof.
  run_induction envs; intros Hrun Hstart.
  - destruct Hstart as [H|H]; [exact H|contradiction].
  - apply IH; [exact Hrun|]. left. eapply tick_in_sync. eassumption.
  - discriminate.
Qed.

Lemma start_log_file path interval fs :
  log_file (monitor (start path interval fs)) = path.
Proof. unfold start, init; simpl. destruct (fs path); reflexivity. Qed.

Lemma start_df path interval fs :
  df (monitor (start path interval fs))
  = match fs path with Some rows => rows | None => [] end.
Proof. unfold start, init; simpl. destruct (fs path); reflexivity. Qed.

Lemma start_log_count path interval fs :
  log_count (monitor (start path interval fs))
  = Z.of_nat (List.length (df (monitor (start path interval fs)))).
Proof. unfold start, init; simpl. destruct (fs path); reflexivity. Qed.

Lemma run_from_start_log_count path interval fs envs :
  log_count (monitor (fst (run_ticks envs (start path interval fs))))
  = Z.of_nat (List.length
                (df (monitor (fst (run_ticks envs (start path interval fs)))))).
Proof.
  destruct (run_ticks_summary envs (start path interval fs))
    as (rows & new & [Hdf _ Hcount _ _ _ _ _] & _ & _).
  rewrite Hcount, Hdf, length_app, start_log_count. lia.
Qed.

Lemma init_reads_log path interval fs rows :
  fs path = Some rows ->
  df (init path interval fs) = rows
  /\ log_count (init path interval fs) = Z.of_nat (List.length rows).
Proof. unfold init. intros ->. split; reflexivity. Qed.

(** What [main] leaves when it ends on the operator's interrupt. *)
Lemma main_running fs envs last_write :
  snd (main fs envs last_write) = Running ->
  snd (run_ticks envs (start "internet_stats.parquet" 300 fs)) = Running
  /\ files (fst (main fs envs last_write)) "internet_stats.parquet"
     = Some (reloaded (df (monitor (fst (main fs envs last_write)))))
  /\ events (fst (main fs envs last_write))
     = events (fst (run_ticks envs (start "internet_stats.parquet" 300 fs)))
       ++ [Printed interrupt_message;
           Saved "internet_stats.parquet"
                 (df (monitor (fst (main fs envs last_write))))].
Proof.
  pose proof (run_ticks_log_file envs (start "internet_stats.parquet" 300 fs))
    as Hfile.
  rewrite start_log_file in Hfile.
  unfold main. fold (start "internet_stats.parquet" 300 fs).
  destruct (run_ticks envs (start "internet_stats.parquet" 300 fs))
    as [w [|e]]; simpl in *; [|discriminate].
  unfold save_stats. rewrite Hfile.
  destruct last_write as [u|e]; simpl; [|discriminate].
  intros _. unfold write_file. rewrite String.eqb_refl. repeat split.
Qed.

(** ** What the log file keeps *)

Lemma cell_survives_refl (cell : option float) : cell_survives cell cell.
Proof. destruct cell; simpl; auto. Qed.

Lemma row_survives_refl (row : Sample) : row_survives row row.
Proof. repeat split; apply cell_survives_refl. Qed.

Lemma reload_cell_survives (numeric : bool) (cell : option float) :
  cell_survives cell (reload_cell numeric cell).
Proof. destruct cell, numeric; simpl; auto. Qed.

Lemma Forall2_refl_rows (rows : DataFrame) : Forall2 row_survives rows rows.
Proof.
  induction rows; constructor; [apply row_survives_refl | assumption].
Qed.

Lemma reloaded_survives (rows : DataFrame) :
  Forall2 row_survives rows (reloaded rows).
Proof.
  unfold reloaded.
  generalize (holds_number download_speed rows) (holds_number upload_speed rows)
             (holds_number ping rows) (holds_number jitter rows).
  intros d u p j.
  induction rows as [|row rows IH]; simpl; constructor; [|exact IH].
  repeat split; simpl; apply reload_cell_survives.
Qed.

Lemma length_reloaded (rows : DataFrame) :
  List.length (reloaded rows) = List.length rows.
Proof. unfold reloaded. apply length_map. Qed.

(** ** Persistence *)

(** X1.  After a run in which no write failed, constructing a monitor anew
    on the same log file gives a series of the same length and the same
    counter, in which every row has kept its timestamp, its packet loss and
    every number it held; a field that was [None] comes back as [None] or
    as NaN.  When at least one tick ran, the log file holds the series as
    parquet gives it back: with NaN for the [None]s of every column that
    holds a number. *)
Theorem X1_restart_reloads_the_series :
  forall (path : string) (interval interval' : float) (fs : FileSystem)
         (envs : list TickEnv),
    snd (run_ticks envs (start path interval fs)) = Running ->
    let w' := fst (run_ticks envs (start path interval fs)) in
    let again := init path interval' (files w') in
    log_count again = log_count (monitor w')
    /\ List.length (df again) = List.length (df (monitor w'))
    /\ Forall2 row_survives (df (monitor w')) (df again)
    /\ (envs <> [] ->
        files w' path = Some (reloaded (df (monitor w')))
        /\ df again = reloaded (df (monitor w'))).
Proof.
  intros path interval interval' fs envs Hrun w' again.
  pose proof (run_from_start_log_count path interval fs envs) as Hcount.
  pose proof (run_ticks_log_file envs (start path interval fs)) as Hfile.
  rewrite start_log_file in Hfile. fold w' in Hcount, Hfile.
  assert (Hsync : envs <> [] -> files w' path = Some (reloaded (df (monitor w')))).
  { intros Hne. rewrite <- Hfile.
    apply (run_ticks_in_sync envs (start path interval fs) Hrun).
    right. exact Hne. }
  destruct envs as [|env rest].
  - assert (Hsame : df again = df (monitor w')
                    /\ log_count again = log_count (monitor w')).
    { unfold again, w'; simpl. unfold init. destruct (fs path); split; reflexivity. }
    destruct Hsame as (Hdf & Hc). rewrite Hdf, Hc.
    repeat split; [apply Forall2_refl_rows|contradiction|contradiction].
  - assert (Hs := Hsync ltac:(discriminate)).
    destruct (init_reads_log path interval' _ _ Hs) as (Hdf & Hc).
    fold again in Hdf, Hc. rewrite Hdf, Hc, length_reloaded, Hcount.
    repeat split; [apply reloaded_survives|exact Hs].
Qed.

Lemma X1_restart_after_two_ticks :
  let envs := [Inputs.env_ok 1700000000; Inputs.env_ok 1700000001] in
  let w' := fst (run_ticks envs (start "internet_stats.parquet" 300
                                   Inputs.disk_with_log)) in
  let again := init "internet_stats.parquet" 600 (files w') in
  log_count again = 3
  /\ Forall2 row_survives (df (monitor w')) (df again)
  /\ df again = reloaded (df (monitor w')).
Proof.
  pose proof (X1_restart_reloads_the_series "internet_stats.parquet" 300 600
                Inputs.disk_with_log
                [Inputs.env_ok 1700000000; Inputs.env_ok 1700000001]
                ltac:(vm_compute; reflexivity)) as (Hcount & _ & Hrows & Hfile).
  split; [rewrite Hcount; vm_compute; reflexivity|].
  split; [exact Hrows|].
  exact (proj2 (Hfile ltac:(discriminate))).
Defined.

(** X2.  When [main] ends on the operator's interrupt, the log file holds
    the whole series as parquet gives it back, also when no tick ran, and
    the last two things done are the message of the interrupt and that
    write; a second [main] on the disk it left starts from that series, in
    which every row of the first run has kept its timestamp, its packet
    loss and every number it held, and only appends to it, one row per tick
    it goes through. *)
Theorem X2_main_saves_and_resumes :
  forall (fs : FileSystem) (envs envs2 : list TickEnv)
         (last_write last_write2 : Exc unit),
    snd (main fs envs last_write) = Running ->
    let w1 := fst (main fs envs last_write) in
    let w2 := fst (main (files w1) envs2 last_write2) in
    files w1 "internet_stats.parquet" = Some (reloaded (df (monitor w1)))
    /\ (exists before,
           events w1
           = before ++ [Printed (String (ascii_of_nat 10)
                                        "Monitoring stopped by user");
                        Saved "internet_stats.parquet" (df (monitor w1))])
    /\ exists kept rows,
        df (monitor w2) = kept ++ rows
        /\ Forall2 row_survives (df (monitor w1)) kept
        /\ List.length rows = List.length (executed envs2).
Proof.
  intros fs envs envs2 last_write last_write2 Hrun w1 w2.
  destruct (main_running fs envs last_write Hrun) as (_ & Hfile & Hev).
  fold w1 in Hfile, Hev. split; [exact Hfile|]. split.
  - eexists. exact Hev.
  - unfold w2. rewrite main_monitor.
    destruct (run_ticks_trace envs2 (start "internet_stats.parquet" 300 (files w1)))
      as (rows & Hdf & Hts & _).
    exists (reloaded (df (monitor w1))), rows.
    rewrite Hdf, start_df, Hfile.
    split; [reflexivity|]. split; [apply reloaded_survives|].
    rewrite <- (length_map timestamp), Hts, length_map. reflexivity.
Qed.

Lemma X2_one_tick_then_one_tick :
  let w1 := fst (main Samples.no_files [Inputs.env_ok 1700000000] (Ok tt)) in
  let w2 := fst (main (files w1) [Inputs.env_ok 1700000600] (Ok tt)) in
  snd (main Samples.no_files [Inputs.env_ok 1700000000] (Ok tt)) = Running
  /\ files w1 "internet_stats.parquet" = Some (reloaded (df (monitor w1)))
  /\ exists kept rows,
      df (monitor w2) = kept ++ rows
      /\ Forall2 row_survives (df (monitor w1)) kept
      /\ List.length rows = 1%nat.
Proof.
  split; [vm_compute; reflexivity|].
  pose proof (X2_main_saves_and_resumes Samples.no_files
                [Inputs.env_ok 1700000000] [Inputs.env_ok 1700000600]
                (Ok tt) (Ok tt) ltac:(vm_compute; reflexivity))
    as (Hfile & _ & Hrows).
  split; [exact Hfile | exact Hrows].
Defined.

(** X3.  A run writes no file but the log file of its monitor, and changes
    neither the path of the log file nor the interval of the speed test. *)
Theorem X3_run_touches_only_the_log_file :
  forall (envs : list TickEnv) (w : World) (p : string),
    p <> log_file (monitor w) ->
    files (fst (run_ticks envs w)) p = files w p
    /\ log_file (monitor (fst (run_ticks envs w))) = log_file (monitor w)
    /\ speed_test_interval (monitor (fst (run_ticks envs w)))
       = speed_test_interval (monitor w).
Proof.
  intros envs w p Hp. split; [|split].
  - apply run_ticks_other_files, Hp.
  - apply run_ticks_log_file.
  - destruct (run_ticks_summary envs w) as (rows & new & [] & _ & _).
    assumption.
Qed.

Lemma X3_another_file_is_left_alone :
  let w := start "internet_stats.parquet" 300 Inputs.disk_with_log in
  "notes.txt" <> log_file (monitor w)
  /\ files (fst (run_ticks [Inputs.env_ok 1700000000] w)) "notes.txt" = None.
Proof.
  assert (H : "notes.txt"
              <> log_file (monitor (start "internet_stats.parquet" 300
                                      Inputs.disk_with_log))).
  { vm_compute. discriminate. }
  split; [exact H|].
  exact (proj1 (X3_run_touches_only_the_log_file [Inputs.env_ok 1700000000]
                  (start "internet_stats.parquet" 300 Inputs.disk_with_log)
                  "notes.txt" H)).
Defined.

(** X4.  A write of the log file that raises ends the loop: the iterations
    after it never run, the process dies with that exception, and the row
    of the failing iteration has been appended in memory. *)
Theorem X4_write_failure_ends_the_run :
  forall (envs1 : list TickEnv) (env : TickEnv) (envs2 : list TickEnv)
         (e : exn) (w : World),
    forallb (fun env => negb (raises (to_parquet env))) envs1 = true ->
    to_parquet env = Raise e ->
    run_ticks (envs1 ++ env :: envs2) w = run_ticks (envs1 ++ [env]) w
    /\ snd (run_ticks (envs1 ++ env :: envs2) w) = Died e
    /\ List.length (df (monitor (fst (run_ticks (envs1 ++ env :: envs2) w))))
       = (List.length (df (monitor w)) + List.length envs1 + 1)%nat.
Proof.
  intros envs1 env envs2 e. induction envs1 as [|env1 rest IH]; intros w Hok Hbad.
  - simpl app. rewrite !run_ticks_cons, Hbad. simpl.
    rewrite tick_df, length_app. simpl. repeat split. lia.
  - simpl in Hok. apply andb_true_iff in Hok as [Hok1 Hok].
    simpl app. rewrite !run_ticks_cons.
    destruct (to_parquet env1); [|discriminate].
    destruct (IH (fst (tick env1 w)) Hok Hbad) as (Heq & Hst & Hlen).
    rewrite Heq in *. repeat split; [exact Hst|].
    rewrite Hlen, tick_df, length_app. simpl. lia.
Qed.

Lemma X4_disk_full_at_the_second_tick :
  let envs := [Inputs.env_ok 1700000000; Inputs.env_disk_full 1700000001;
               Inputs.env_ok 1700000002] in
  let w := start "internet_stats.parquet" 300 Samples.no_files in
  snd (run_ticks envs w) = Died (OtherError "OSError")
  /\ List.length (df (monitor (fst (run_ticks envs w)))) = 2%nat.
Proof.
  pose proof (X4_write_failure_ends_the_run
                [Inputs.env_ok 1700000000] (Inputs.env_disk_full 1700000001)
                [Inputs.env_ok 1700000002] (OtherError "OSError")
                (start "internet_stats.parquet" 300 Samples.no_files)
                ltac:(vm_compute; reflexivity) ltac:(reflexivity))
    as (_ & Hst & Hlen).
  split; [exact Hst | exact Hlen].
Defined.

(** ** What every tick does *)

Lemma run_ticks_rows_forall (P : Sample -> Prop) :
  (forall self env, P (new_row_of self env)) ->
  forall envs w,
    exists rows,
      df (monitor (fst (run_ticks envs w))) = df (monitor w) ++ rows
      /\ Forall P rows.
Proof.
  intros HP envs. run_induction envs.
  - exists []. rewrite app_nil_r. split; [reflexivity|constructor].
  - destruct (IH (fst (tick env w))) as (rows & Hdf & Hall).
    exists (new_row_of (monitor w) env :: rows).
    rewrite Hdf, tick_df, <- app_assoc. split; [reflexivity|].
    constructor; [apply HP | exact Hall].
  - exists [new_row_of (monitor w) env]. rewrite tick_df.
    split; [reflexivity|]. constructor; [apply HP | constructor].
Qed.

Lemma ping_command_consistent self system run host count :
  latency_consistent (fst (fst (ping_command self system run host count))).
Proof.
  rewrite ping_command_result. unfold ping_attempt.
  destruct (run (ping_cmd system host count)) as [result|e]; simpl;
    [|reflexivity].
  unfold parse_ping. destruct (returncode result =? 0); [|reflexivity].
  destruct (parse_times system (stdout result)) as [[|t times]|e]; simpl;
    try reflexivity.
  unfold metrics_of.
  destruct (mean (t :: times)); simpl; [|reflexivity].
  destruct (jitter_of (t :: times)); simpl; [|reflexivity].
  destruct (int_truediv _ count); simpl; [exact I|reflexivity].
Qed.

(** X5.  The latency probe runs at every tick, whatever the state of the
    speed test: a run spawns exactly one [ping] per tick it goes through,
    for three probes to 8.8.8.8, with the count flag of the platform; and
    it invokes the throughput probe at most once per tick.  A run in which
    no write fails goes through all its ticks. *)
Theorem X5_one_ping_per_tick :
  forall (envs : list TickEnv) (w : World),
    (exists new,
        events (fst (run_ticks envs w)) = events w ++ new
        /\ ping_invocations new = map tick_ping_cmd (executed envs)
        /\ (List.length (speedtest_attempts new)
            <= List.length (executed envs))%nat)
    /\ (forall env,
           tick_ping_cmd env
           = ["ping";
              if (platform_system env =? "windows")%string then "-n" else "-c";
              "3"; "8.8.8.8"])
    /\ (snd (run_ticks envs w) = Running -> executed envs = envs).
Proof.
  intros envs w. split; [|split].
  - destruct (run_ticks_summary envs w) as (rows0 & new & [_ Hev _ _ _ _ _ _] & _).
    destruct (run_ticks_trace envs w) as (rows & _ & _ & Hping & _ & Hatt).
    exists new. split; [exact Hev|].
    rewrite Hev, ping_invocations_app in Hping.
    rewrite Hev, speedtest_attempts_app, length_app in Hatt.
    split; [eapply app_inv_head, Hping | lia].
  - intros env. unfold tick_ping_cmd, ping_cmd.
    destruct (platform_system env =? "windows")%string; reflexivity.
  - apply executed_running.
Qed.

(** X6.  At every tick the console shows the row that the tick has just
    appended: the rows displayed during a run are the rows that the run
    added to the series, each once and in order, also at a tick whose write
    then fails. *)
Theorem X6_every_new_row_is_displayed :
  forall (envs : list TickEnv) (w : World),
    exists rows new,
      df (monitor (fst (run_ticks envs w))) = df (monitor w) ++ rows
      /\ events (fst (run_ticks envs w)) = events w ++ new
      /\ displayed_rows new = rows.
Proof.
  intros envs w.
  destruct (run_ticks_summary envs w) as (rows0 & new & [_ Hev _ _ _ _ _ _] & _).
  destruct (run_ticks_trace envs w) as (rows & Hdf & _ & _ & Hshow & _).
  exists rows, new. split; [exact Hdf|]. split; [exact Hev|].
  rewrite Hev, displayed_rows_app in Hshow.
  eapply app_inv_head, Hshow.
Qed.

(** X7.  The rows that a run appends carry, in order, the timestamps that
    the clock gave at the start of each tick: the order of the series is
    the order of the ticks. *)
Theorem X7_rows_are_stamped_in_tick_order :
  forall (envs : list TickEnv) (w : World),
    exists rows,
      df (monitor (fst (run_ticks envs w))) = df (monitor w) ++ rows
      /\ map timestamp rows = map timestamp_now (executed envs).
Proof.
  intros envs w.
  destruct (run_ticks_trace envs w) as (rows & Hdf & Hts & _).
  exists rows. split; assumption.
Qed.

(** X8.  The timestamp of the last speed test moves exactly at the ticks
    whose row carries speeds, and then to the clock reading of that tick;
    the speeds of a row are the bits per second that the probe reported,
    divided by 1,000,000. *)
Theorem X8_speeds_and_timestamp_move_together :
  forall (self : InternetMonitor) (env : TickEnv),
    let row := new_row_of self env in
    last_speed_test (fst (collect_metrics self env))
    = match download_speed row with
      | Some _ => time_time env
      | None => last_speed_test self
      end
    /\ (download_speed row = None
        \/ exists d u,
            st_download (speedtest_reply env) = Ok d
            /\ st_upload (speedtest_reply env) = Ok u
            /\ download_speed row = Some (d / 1000000)%float
            /\ upload_speed row = Some (u / 1000000)%float).
Proof.
  intros self env row. unfold row, new_row_of.
  rewrite collect_metrics_unfold. simpl.
  unfold measure_speed.
  destruct (_ <? _)%float; simpl; [split; [reflexivity|left; reflexivity]|].
  unfold speed_test.
  destruct (st_new (speedtest_reply env)); simpl;
    [|split; [reflexivity|left; reflexivity]].
  destruct (st_download (speedtest_reply env)) as [d|]; simpl;
    [|split; [reflexivity|left; reflexivity]].
  destruct (st_upload (speedtest_reply env)) as [u|]; simpl;
    [|split; [reflexivity|left; reflexivity]].
  split; [reflexivity|]. right. exists d, u. repeat split.
Qed.

(** X9.  On every return path of [ping_command] the ping and the jitter
    are both present or both absent, and when they are absent the packet
    loss is [100]; so it is with every row that a run appends. *)
Theorem X9_latency_fields_fit_together :
  forall (self : InternetMonitor) (system : string)
         (run : list string -> Exc CompletedProcess) (host : string) (count : Z)
         (envs : list TickEnv) (w : World),
    latency_consistent (fst (fst (ping_command self system run host count)))
    /\ exists rows,
        df (monitor (fst (run_ticks envs w))) = df (monitor w) ++ rows
        /\ Forall row_latency_consistent rows.
Proof.
  intros self system run host count envs w. split.
  - apply ping_command_consistent.
  - apply run_ticks_rows_forall. intros self0 env.
    unfold row_latency_consistent, new_row_of; simpl.
    generalize (ping_command_consistent
                  (snd (fst (measure_speed self0 (time_time env)
                                           (speedtest_reply env))))
                  (platform_system env) (subprocess_run env) "8.8.8.8" 3).
    destruct (fst (fst (ping_command _ _ _ _ _))) as [[p j] loss].
    simpl. exact (fun H => H).
Qed.

(** ** Strings: appending, prefixes and the scan of [split] *)

Lemma sapp_nil_r (s : string) : (s ++ "")%string = s.
Proof. induction s as [|c s IH]; simpl; [reflexivity|rewrite IH; reflexivity]. Qed.

Lemma sapp_assoc (a b c : string) :
  ((a ++ b) ++ c)%string = (a ++ (b ++ c))%string.
Proof. induction a as [|x a IH]; simpl; [reflexivity|rewrite IH; reflexivity]. Qed.

Lemma slength_app (a b : string) :
  String.length (a ++ b) = (String.length a + String.length b)%nat.
Proof. induction a as [|x a IH]; simpl; [reflexivity|rewrite IH; reflexivity]. Qed.

Lemma prefix_cons (a b : ascii) (p s : string) :
  prefix (String a p) (String b s) = (Ascii.eqb a b && prefix p s)%bool.
Proof.
  simpl. destruct (ascii_dec a b) as [->|Hne].
  - rewrite Ascii.eqb_refl. reflexivity.
  - apply Ascii.eqb_neq in Hne. rewrite Hne. reflexivity.
Qed.

Lemma prefix_nil_r (p : string) : prefix p "" = true -> p = "".
Proof. destruct p; [reflexivity|discriminate]. Qed.

Lemma prefix_app (p b : string) : prefix p (p ++ b) = true.
Proof.
  induction p as [|c p IH]; [destruct b; reflexivity|].
  simpl append. rewrite prefix_cons, Ascii.eqb_refl. exact IH.
Qed.

(** A prefix that fits in the first part of a text is a prefix of it. *)
Lemma prefix_app_long (p : string) : forall x y,
  (String.length p <= String.length x)%nat ->
  prefix p (x ++ y) = prefix p x.
Proof.
  induction p as [|c p IH]; intros x y Hlen.
  - destruct x, y; reflexivity.
  - destruct x as [|b x]; [simpl in Hlen; lia|].
    simpl append. rewrite !prefix_cons, IH; [reflexivity|simpl in Hlen; lia].
Qed.

Lemma contains_cons (sep : string) (c : ascii) (s : string) :
  contains sep (String c s) = (prefix sep (String c s) || contains sep s)%bool.
Proof. reflexivity. Qed.

(** A prefix without the character [c] ends before the first [c]. *)
Lemma prefix_before_char (c : ascii) (p : string) : forall u v,
  contains (String c "") p = false ->
  prefix p (u ++ String c v) = true ->
  prefix p u = true.
Proof.
  induction p as [|a p IH]; intros u v Hc Hp.
  - destruct u; reflexivity.
  - rewrite contains_cons in Hc. apply orb_false_iff in Hc as [Hhead Hc].
    destruct u as [|b u].
    + simpl append in Hp. rewrite prefix_cons in Hp.
      apply andb_true_iff in Hp as [Heq _]. apply Ascii.eqb_eq in Heq. subst a.
      rewrite prefix_cons, Ascii.eqb_refl in Hhead.
      destruct p; discriminate.
    + simpl append in Hp. rewrite prefix_cons in *.
      apply andb_true_iff in Hp as [Heq Hp]. rewrite Heq. simpl.
      eapply IH; eassumption.
Qed.

Lemma drop_last_snoc (s : string) :
  s <> "" -> exists l, s = (drop_last s ++ String l "")%string.
Proof.
  induction s as [|c s IH]; intros Hne; [contradiction|].
  destruct s as [|d s].
  - exists c. reflexivity.
  - destruct (IH ltac:(discriminate)) as (l & Hl).
    exists l.
    change (String c (String d s)
            = String c (drop_last (String d s) ++ String l "")%string).
    rewrite <- Hl. reflexivity.
Qed.

Lemma rev_string_acc (s : string) : forall acc,
  rev_string s acc = (rev_string s "" ++ acc)%string.
Proof.
  induction s as [|c s IH]; intros acc; simpl; [reflexivity|].
  rewrite (IH (String c acc)), (IH (String c "")), sapp_assoc. reflexivity.
Qed.

(** What the scan holds in [cur] is given back in reading order. *)
Lemma rev_string_read (a : string) : forall cur,
  rev_string (rev_string a cur) "" = (rev_string cur "" ++ a)%string.
Proof.
  induction a as [|c a IH]; intros cur; simpl.
  - rewrite sapp_nil_r. reflexivity.
  - rewrite IH. simpl. rewrite (rev_string_acc cur (String c "")), sapp_assoc.
    reflexivity.
Qed.

Lemma split_scan_nil (sep : string) (skip : nat) (cur : string) :
  split_scan sep "" skip cur = [rev_string cur ""].
Proof. reflexivity. Qed.

Lemma split_scan_cons (sep : string) (c : ascii) (s cur : string) :
  split_scan sep (String c s) 0 cur
  = if prefix sep (String c s)
    then rev_string cur "" :: split_scan sep s (Nat.pred (String.length sep)) ""
    else split_scan sep s 0 (String c cur).
Proof. reflexivity. Qed.

Lemma split_scan_skipping (sep : string) (c : ascii) (s cur : string) (k : nat) :
  split_scan sep (String c s) (S k) cur = split_scan sep s k cur.
Proof. reflexivity. Qed.

Lemma split_scan_nonempty (sep : string) : forall s skip cur,
  exists piece more, split_scan sep s skip cur = piece :: more.
Proof.
  induction s as [|c s IH]; intros skip cur.
  - rewrite split_scan_nil. eauto.
  - destruct skip as [|k]; [|rewrite split_scan_skipping; apply IH].
    rewrite split_scan_cons.
    destruct (prefix sep (String c s)); [eauto|apply IH].
Qed.

Lemma split_scan_skip (sep : string) (x : string) : forall b cur,
  split_scan sep (x ++ b) (String.length x) cur = split_scan sep b 0 cur.
Proof.
  induction x as [|c x IH]; intros b cur; [reflexivity|].
  simpl append. simpl String.length. rewrite split_scan_skipping. apply IH.
Qed.

(** Without the separator there is one piece: the whole text. *)
Lemma split_scan_none (sep : string) : forall s cur,
  contains sep s = false ->
  split_scan sep s 0 cur = [(rev_string cur "" ++ s)%string].
Proof.
  induction s as [|c s IH]; intros cur Hno.
  - rewrite split_scan_nil, sapp_nil_r. reflexivity.
  - rewrite contains_cons in Hno. apply orb_false_iff in Hno as [Hp Hno].
    rewrite split_scan_cons, Hp, (IH _ Hno). simpl rev_string.
    rewrite (rev_string_acc cur (String c "")), sapp_assoc. reflexivity.
Qed.

(** The text before the first separator is the first piece. *)
Lemma split_scan_first (sep a b : string) : forall cur,
  sep <> "" ->
  contains sep (a ++ drop_last sep) = false ->
  split_scan sep (a ++ sep ++ b) 0 cur
  = (rev_string cur "" ++ a)%string :: split_scan sep b 0 "".
Proof.
  intros cur Hsep. revert cur.
  destruct (drop_last_snoc sep Hsep) as (l & Hl).
  induction a as [|c a IH]; intros cur Hno.
  - simpl append. rewrite sapp_nil_r.
    destruct sep as [|s0 sep']; [contradiction|].
    simpl append. rewrite split_scan_cons.
    change (String s0 (sep' ++ b)%string) with (String s0 sep' ++ b)%string.
    rewrite prefix_app. simpl Nat.pred.
    rewrite split_scan_skip. reflexivity.
  - simpl append in *. rewrite contains_cons in Hno.
    apply orb_false_iff in Hno as [Hp Hno].
    rewrite split_scan_cons.
    replace (prefix sep (String c (a ++ sep ++ b)%string)) with false.
    + rewrite (IH _ Hno). simpl rev_string.
      rewrite (rev_string_acc cur (String c "")), sapp_assoc. reflexivity.
    + symmetry. rewrite <- Hp.
      rewrite Hl at 2. rewrite sapp_assoc, <- (sapp_assoc a).
      change (String c ((a ++ drop_last sep) ++ String l "" ++ b)%string)
        with (String c (a ++ drop_last sep) ++ (String l "" ++ b))%string.
      apply prefix_app_long.
      simpl. rewrite slength_app.
      rewrite Hl at 1. rewrite slength_app. simpl. lia.
Qed.

(** The first piece starts with what [cur] holds. *)
Lemma split_scan_head (sep : string) : forall s cur,
  exists y more,
    split_scan sep s 0 cur = (rev_string cur "" ++ y)%string :: more.
Proof.
  induction s as [|c s IH]; intros cur.
  - exists "", []. rewrite split_scan_nil, sapp_nil_r. reflexivity.
  - rewrite split_scan_cons. destruct (prefix sep (String c s)).
    + exists "". eexists. rewrite sapp_nil_r. reflexivity.
    + destruct (IH (String c cur)) as (y & more & ->).
      exists (String c y), more. simpl rev_string.
      rewrite (rev_string_acc cur (String c "")), sapp_assoc. reflexivity.
Qed.

(** A text without the separator, followed by a character that the separator
    does not have, stays in the first piece. *)
Lemma split_scan_past_char (sep a : string) (c : ascii) (y : string) : forall cur,
  contains (String c "") sep = false ->
  contains sep a = false ->
  exists y1 more,
    split_scan sep (a ++ String c y) 0 cur
    = (rev_string cur "" ++ a ++ String c y1)%string :: more.
Proof.
  intros cur Hc. revert cur.
  induction a as [|b a IH]; intros cur Hno.
  - simpl append. rewrite split_scan_cons.
    assert (Hp : prefix sep (String c y) = false).
    { destruct (prefix sep (String c y)) eqn:Hp; [|reflexivity].
      pose proof (prefix_before_char c sep "" y Hc Hp) as Hnil.
      apply prefix_nil_r in Hnil. subst sep. discriminate. }
    rewrite Hp.
    destruct (split_scan_head sep y (String c cur)) as (y1 & more & ->).
    exists y1, more. simpl rev_string.
    rewrite (rev_string_acc cur (String c "")), sapp_assoc. reflexivity.
  - rewrite contains_cons in Hno. apply orb_false_iff in Hno as [Hp Hno].
    simpl append. rewrite split_scan_cons.
    assert (Hp' : prefix sep (String b (a ++ String c y)%string) = false).
    { destruct (prefix sep (String b (a ++ String c y)%string)) eqn:Hq;
        [|reflexivity].
      rewrite (prefix_before_char c sep (String b a) y Hc Hq) in Hp.
      discriminate. }
    rewrite Hp'.
    destruct (IH (String b cur) Hno) as (y1 & more & ->).
    exists y1, more. simpl rev_string.
    rewrite (rev_string_acc cur (String b "")), sapp_assoc. reflexivity.
Qed.

(** ** The tokens that the latency parser reads *)

Lemma split_scan_two_pieces (sep : string) : forall s cur,
  sep <> "" ->
  contains sep s = true ->
  exists first second more,
    split_scan sep s 0 cur = first :: second :: more.
Proof.
  induction s as [|c s IH]; intros cur Hsep Hin.
  - destruct sep; [contradiction|discriminate].
  - rewrite split_scan_cons. rewrite contains_cons in Hin.
    destruct (prefix sep (String c s)).
    + destruct (split_scan_nonempty sep s (Nat.pred (String.length sep)) "")
        as (piece & more & ->).
      eauto.
    + apply IH; assumption.
Qed.

Lemma read_number_value_error (s : string) (e : exn) :
  read_number s = Raise e -> e = ValueError.
Proof.
  unfold read_number.
  destruct (read_sign s) as [neg body].
  destruct (_ || _)%bool; [discriminate|].
  destruct (_ =? "nan")%string; [discriminate|].
  destruct (span_digits body 0 0) as [[ipart ni] rest].
  match goal with
  | |- context [match ?x with _ => _ end] =>
      lazymatch type of x with
      | (Z * Z * string)%type => destruct x as [[mant nf] rest']
      end
  end.
  destruct (ni + nf =? 0); [congruence|].
  destruct (read_exponent rest'); congruence.
Qed.

Lemma float_of_str_value_error (s : string) (e : exn) :
  float_of_str s = Raise e -> e = ValueError.
Proof.
  unfold float_of_str.
  destruct (drop_underscores _ _) as [t|]; [|congruence].
  destruct (drop_while_end is_c_space (drop_while is_c_space t)) as [|c body] eqn:Hb;
    [congruence|].
  apply read_number_value_error.
Qed.

(** On a line with [time=] the two indexings succeed: what is returned or
    raised is what [float] makes of some token. *)
Lemma time_of_line_reads_a_token (system line : string) :
  contains "time=" line = true ->
  exists token, time_of_line system line = float_of_str token.
Proof.
  intros Hin.
  destruct (split_scan_two_pieces "time=" line "" ltac:(discriminate) Hin)
    as (first & second & more & Hparts).
  unfold time_of_line.
  destruct (system =? "windows")%string.
  - unfold windows_time, split. rewrite Hparts. simpl.
    destruct (split_scan_nonempty "ms" second 0 "") as (piece & more' & ->).
    simpl. eauto.
  - unfold unix_time, split. rewrite Hparts. simpl.
    destruct (split_scan_nonempty " " second 0 "") as (piece & more' & ->).
    simpl. eauto.
Qed.

Lemma comprehension_raise_inv {A B : Type} (f : A -> Exc B) (xs : list A) (e : exn) :
  comprehension f xs = Raise e -> exists x, In x xs /\ f x = Raise e.
Proof.
  induction xs as [|x rest IH]; simpl; [discriminate|].
  destruct (f x) as [y|e'] eqn:Hx; simpl.
  - destruct (comprehension f rest) as [ys|e'']; simpl; [discriminate|].
    intros [= ->]. destruct (IH eq_refl) as (x' & Hin & Hx').
    exists x'. auto.
  - intros [= ->]. exists x. auto.
Qed.

(** X10.  The filter on [time=] makes the two indexings of the parser safe:
    when the parsing of an output raises, the exception is the [ValueError]
    of [float] on the token of some line with [time=], never an
    [IndexError]. *)
Theorem X10_parsing_raises_only_ValueError :
  forall (system output : string) (e : exn),
    parse_times system output = Raise e ->
    e = ValueError
    /\ exists line token,
        In line (splitlines output)
        /\ contains "time=" line = true
        /\ time_of_line system line = float_of_str token
        /\ float_of_str token = Raise ValueError.
Proof.
  intros system output e Hraise.
  destruct (comprehension_raise_inv _ _ _ Hraise) as (line & Hin & Hline).
  apply filter_In in Hin as [Hin Htime].
  destruct (time_of_line_reads_a_token system line Htime) as (token & Htok).
  rewrite Htok in Hline.
  pose proof (float_of_str_value_error _ _ Hline) as ->.
  split; [reflexivity|]. exists line, token. auto.
Qed.

Lemma X10_the_token_12_0ms :
  parse_times "linux" Samples.linux_one_unparsable = Raise ValueError
  /\ exists line token,
      In line (splitlines Samples.linux_one_unparsable)
      /\ contains "time=" line = true
      /\ time_of_line "linux" line = float_of_str token
      /\ float_of_str token = Raise ValueError.
Proof.
  assert (H : parse_times "linux" Samples.linux_one_unparsable = Raise ValueError)
    by (vm_compute; reflexivity).
  split; [exact H|].
  exact (proj2 (X10_parsing_raises_only_ValueError "linux"
                  Samples.linux_one_unparsable ValueError H)).
Defined.

(** X11.  On a platform other than Windows, a line in which the first
    [time=] is followed by a token and a blank gives [float] of that token,
    whatever precedes and follows; so does a line that ends with the
    token.  The token holds no blank and no [time=], and no [time=] begins
    before the one that precedes it. *)
Theorem X11_unix_token :
  forall (system pre token rest : string),
    (system =? "windows")%string = false ->
    contains "time=" (pre ++ "time") = false ->
    contains "time=" token = false ->
    contains " " token = false ->
    time_of_line system (pre ++ "time=" ++ token ++ " " ++ rest)
    = float_of_str token
    /\ time_of_line system (pre ++ "time=" ++ token) = float_of_str token.
Proof.
  intros system pre token rest Hsys Hpre Htok Hblank.
  unfold time_of_line. rewrite Hsys. unfold unix_time, split. split.
  - rewrite (split_scan_first "time=" pre _ "" ltac:(discriminate) Hpre).
    destruct (split_scan_past_char "time=" token " "%char rest ""
                eq_refl Htok) as (y1 & more & Hsecond).
    change (token ++ " " ++ rest)%string with (token ++ String " " rest)%string.
    rewrite Hsecond. simpl.
    change (token ++ String " " y1)%string with (token ++ " " ++ y1)%string.
    rewrite (split_scan_first " " token y1 "" ltac:(discriminate)); simpl.
    + reflexivity.
    + rewrite sapp_nil_r. exact Hblank.
  - rewrite <- (sapp_nil_r token) at 1.
    rewrite (split_scan_first "time=" pre _ "" ltac:(discriminate) Hpre).
    rewrite sapp_nil_r, (split_scan_none "time=" token "" Htok). simpl.
    rewrite (split_scan_none " " token "" Hblank). reflexivity.
Qed.

Lemma X11_a_reply_of_linux :
  time_of_line "linux"
    (Inputs.linux_reply_head ++ "time=" ++ "10.0" ++ " " ++ "ms")
  = Ok 10%float.
Proof.
  refine (eq_trans
            (proj1 (X11_unix_token "linux" Inputs.linux_reply_head "10.0" "ms"
                      _ _ _ _)) _);
    vm_compute; reflexivity.
Defined.

(** X12.  On Windows, a line in which the first [time=] is followed by a
    token and [ms] gives [float] of that token with the blanks around it
    stripped, whatever precedes and follows.  The token followed by [m]
    holds neither [ms] nor [time=], and no [time=] begins before the one
    that precedes it. *)
Theorem X12_windows_token :
  forall (pre token rest : string),
    contains "time=" (pre ++ "time") = false ->
    contains "time=" (token ++ "m") = false ->
    contains "ms" (token ++ "m") = false ->
    time_of_line "windows" (pre ++ "time=" ++ token ++ "ms" ++ rest)
    = float_of_str (strip token).
Proof.
  intros pre token rest Hpre Htok Hms.
  unfold time_of_line. rewrite String.eqb_refl.
  unfold windows_time, split.
  rewrite (split_scan_first "time=" pre _ "" ltac:(discriminate) Hpre).
  destruct (split_scan_past_char "time=" (token ++ "m") "s"%char rest ""
              eq_refl Htok) as (y1 & more & Hsecond).
  replace (token ++ "ms" ++ rest)%string
    with ((token ++ "m") ++ String "s" rest)%string
    by (rewrite sapp_assoc; reflexivity).
  rewrite Hsecond. simpl.
  replace ((token ++ "m") ++ String "s" y1)%string
    with (token ++ "ms" ++ y1)%string
    by (rewrite sapp_assoc; reflexivity).
  rewrite (split_scan_first "ms" token y1 "" ltac:(discriminate) Hms).
  reflexivity.
Qed.

Lemma X12_a_reply_of_windows :
  time_of_line "windows"
    (Inputs.windows_reply_head ++ "time=" ++ "10" ++ "ms" ++ " TTL=117")
  = Ok 10%float.
Proof.
  refine (eq_trans
            (X12_windows_token Inputs.windows_reply_head "10" " TTL=117"
               _ _ _) _);
    vm_compute; reflexivity.
Defined.

Lemma comprehension_ok {A B : Type} (f : A -> Exc B) : forall xs ys,
  comprehension f xs = Ok ys -> Forall2 (fun x y => f x = Ok y) xs ys.
Proof.
  induction xs as [|x rest IH]; simpl; intros ys Hok.
  - injection Hok as <-. constructor.
  - destruct (f x) as [y|e] eqn:Hx; simpl in Hok; [|discriminate].
    destruct (comprehension f rest) as [ys'|e]; simpl in Hok; [|discriminate].
    injection Hok as <-. constructor; [exact Hx | apply IH; reflexivity].
Qed.

(** X13.  When the parsing of an output succeeds, [times] holds one value
    per line with [time=], in the order of the lines: the number of times,
    from which the packet loss is computed, is the number of those lines,
    whatever the count requested. *)
Theorem X13_one_time_per_line :
  forall (system output : string) (times : list float),
    parse_times system output = Ok times ->
    Forall2 (fun line t => time_of_line system line = Ok t)
            (filter (contains "time=") (splitlines output)) times
    /\ List.length times
       = List.length (filter (contains "time=") (splitlines output)).
Proof.
  intros system output times Hok.
  pose proof (comprehension_ok _ _ _ Hok) as Hall.
  split; [exact Hall|].
  symmetry. eapply Forall2_length, Hall.
Qed.

Lemma X13_two_replies_of_windows :
  Forall2 (fun line t => time_of_line "windows" line = Ok t)
          (filter (contains "time=") (splitlines Samples.windows_two_replies))
          [10; 12]%float
  /\ List.length [10; 12]%float
     = List.length (filter (contains "time=")
                           (splitlines Samples.windows_two_replies)).
Proof.
  exact (X13_one_time_per_line "windows" Samples.windows_two_replies
           [10; 12]%float ltac:(vm_compute; reflexivity)).
Defined.

(** ** The cooldown seen from the series *)

Lemma measure_speed_early self t st :
  too_early (speed_test_interval self) (last_speed_test self) t = true ->
  measure_speed self t st = ((None, None), self, []).
Proof.
  unfold measure_speed, too_early. intros ->. reflexivity.
Qed.

(** X14.  While every tick of a run comes less than the interval after the
    recorded timestamp, the throughput probe is not invoked at all: every
    row appended has both speeds absent and the timestamp stays where it
    was. *)
Theorem X14_no_speed_test_during_the_cooldown :
  forall (envs : list TickEnv) (w : World),
    Forall (fun env => too_early (speed_test_interval (monitor w))
                                 (last_speed_test (monitor w))
                                 (time_time env) = true) envs ->
    exists rows new,
      df (monitor (fst (run_ticks envs w))) = df (monitor w) ++ rows
      /\ events (fst (run_ticks envs w)) = events w ++ new
      /\ speedtest_attempts new = []
      /\ Forall (fun row => download_speed row = None
                            /\ upload_speed row = None) rows
      /\ last_speed_test (monitor (fst (run_ticks envs w)))
         = last_speed_test (monitor w).
Proof.
  assert (Htick : forall env w,
    too_early (speed_test_interval (monitor w)) (last_speed_test (monitor w))
              (time_time env) = true ->
    speedtest_attempts (snd (collect_metrics (monitor w) env)) = []
    /\ download_speed (new_row_of (monitor w) env) = None
    /\ upload_speed (new_row_of (monitor w) env) = None
    /\ last_speed_test (monitor (fst (tick env w))) = last_speed_test (monitor w)
    /\ speed_test_interval (monitor (fst (tick env w)))
       = speed_test_interval (monitor w)).
  { intros env w Hearly.
    rewrite tick_monitor, collect_metrics_interval.
    rewrite collect_metrics_last_speed_test, collect_metrics_attempts.
    unfold new_row_of.
    rewrite (measure_speed_early _ _ (speedtest_reply env) Hearly).
    repeat split. }
  induction envs as [|env rest IH]; intros w Hall.
  - exists [], []. simpl. rewrite !app_nil_r. repeat split. constructor.
  - inversion Hall as [|? ? Hearly Hrest]; subst.
    destruct (Htick env w Hearly) as (Hatt & Hd & Hu & Hl & Hi).
    pose proof (tick_trace env w) as Htrace.
    rewrite run_ticks_cons. destruct (to_parquet env); simpl.
    + rewrite <- Hl, <- Hi in Hrest.
      destruct (IH (fst (tick env w)) Hrest)
        as (rows & new & Hdf & Hev & Hnone & Hrows & Hlast).
      exists (new_row_of (monitor w) env :: rows). eexists.
      rewrite Hdf, Hev, Htrace, tick_df, Hlast, Hl, <- !app_assoc.
      split; [reflexivity|]. split; [reflexivity|].
      rewrite !speedtest_attempts_app, Hatt, Hnone.
      repeat split. constructor; [split; assumption | exact Hrows].
    + exists [new_row_of (monitor w) env]. eexists.
      rewrite Htrace, tick_df, Hl.
      split; [reflexivity|]. split; [reflexivity|].
      rewrite !speedtest_attempts_app, Hatt.
      repeat split. constructor; [split; assumption | constructor].
Qed.

Lemma X14_two_ticks_after_a_speed_test :
  let w := {| monitor := set_last_speed_test Samples.fresh 1700000000;
              files := Samples.no_files; events := [] |} in
  let envs := [Inputs.env_ok 1700000001; Inputs.env_ok 1700000002] in
  exists rows new,
    df (monitor (fst (run_ticks envs w))) = df (monitor w) ++ rows
    /\ events (fst (run_ticks envs w)) = events w ++ new
    /\ speedtest_attempts new = []
    /\ Forall (fun row => download_speed row = None
                          /\ upload_speed row = None) rows
    /\ last_speed_test (monitor (fst (run_ticks envs w)))
       = last_speed_test (monitor w).
Proof.
  apply X14_no_speed_test_during_the_cooldown.
  repeat constructor.
Defined.

(** X15.  No write of a run drops a row: every series that a run writes to
    the log file starts with the series that the run started from and is
    the start of the series that the run ends with. *)
Theorem X15_every_write_holds_all_rows_so_far :
  forall (envs : list TickEnv) (w : World),
    exists new,
      events (fst (run_ticks envs w)) = events w ++ new
      /\ Forall (fun saved =>
                   exists added later,
                     saved = df (monitor w) ++ added
                     /\ df (monitor (fst (run_ticks envs w))) = saved ++ later)
                (saved_series new).
Proof.
  induction envs as [|env rest IH]; intros w.
  - exists []. simpl. rewrite app_nil_r. split; [reflexivity|constructor].
  - pose proof (tick_trace env w) as Htrace.
    destruct (collect_metrics_trace (monitor w) env) as (_ & _ & Hquiet).
    rewrite run_ticks_cons. destruct (to_parquet env); simpl.
    + destruct (IH (fst (tick env w))) as (new & Hev & Hall).
      destruct (run_ticks_summary rest (fst (tick env w)))
        as (rows1 & new1 & [Hdf1 _ _ _ _ _ _ _] & _).
      eexists. rewrite Hev, Htrace, <- !app_assoc.
      split; [reflexivity|].
      rewrite !saved_series_app, Hquiet. simpl.
      constructor.
      * exists [new_row_of (monitor w) env], rows1.
        split; [reflexivity|]. rewrite Hdf1, tick_df. reflexivity.
      * eapply Forall_impl; [|exact Hall].
        intros saved (added & later & Hs & Hd).
        exists ([new_row_of (monitor w) env] ++ added), later.
        split; [|exact Hd].
        rewrite Hs, tick_df, <- app_assoc. reflexivity.
    + eexists. rewrite Htrace. split; [reflexivity|].
      rewrite !saved_series_app, Hquiet. simpl. constructor.
Qed.

(** ** The inputs of the latency parser *)

(** The latency fields of the row of a tick are what [ping_command] makes
    of the platform name and of the answer of [ping]. *)
Lemma new_row_latency self env :
  latency_of (new_row_of self env)
  = match (result <- subprocess_run env (tick_ping_cmd env) ;;
           parse_ping (platform_system env) 3 result) with
    | Ok r => r
    | Raise _ => ping_failed
    end.
Proof.
  unfold latency_of, new_row_of; simpl.
  rewrite <- !surjective_pairing, ping_command_result.
  reflexivity.
Qed.

Lemma same_ping_inputs_same_latency self1 self2 env1 env2 :
  same_ping_inputs env1 env2 ->
  latency_of (new_row_of self1 env1) = latency_of (new_row_of self2 env2).
Proof.
  intros (Hsys & Hrun). rewrite !new_row_latency, Hsys, Hrun. reflexivity.
Qed.

Lemma run_ticks_same_latency envs1 envs2 :
  Forall2 same_ping_inputs envs1 envs2 ->
  forall w1 w2,
    snd (run_ticks envs1 w1) = Running ->
    snd (run_ticks envs2 w2) = Running ->
    exists rows1 rows2,
      df (monitor (fst (run_ticks envs1 w1))) = df (monitor w1) ++ rows1
      /\ df (monitor (fst (run_ticks envs2 w2))) = df (monitor w2) ++ rows2
      /\ List.length rows1 = List.length envs1
      /\ map latency_of rows1 = map latency_of rows2.
Proof.
  induction 1 as [|env1 env2 rest1 rest2 Hsame Hrest IH]; intros w1 w2 Hrun1 Hrun2.
  - exists [], []. simpl. rewrite !app_nil_r. repeat split.
  - rewrite !run_ticks_cons in *.
    destruct (to_parquet env1); [|discriminate].
    destruct (to_parquet env2); [|discriminate].
    cbv beta iota in *.
    destruct (IH _ _ Hrun1 Hrun2) as (rows1 & rows2 & Hdf1 & Hdf2 & Hlen & Hlat).
    exists (new_row_of (monitor w1) env1 :: rows1),
           (new_row_of (monitor w2) env2 :: rows2).
    rewrite Hdf1, Hdf2, !tick_df, <- !app_assoc. simpl.
    rewrite Hlen, Hlat,
      (same_ping_inputs_same_latency (monitor w1) (monitor w2) _ _ Hsame).
    repeat split.
Qed.

(** C9, as amended.  The three metrics of the latency parser are a function
    of the platform name, of the exit status and text of the finished
    [ping] and of the requested count, and of nothing else.  For one call:
    they do not depend on the monitor or on the host pinged, evaluating
    twice in a row gives the same result, and the monitor is not modified.
    For two runs whose ticks see the same platform and the same answer of
    [ping]: the rows appended carry the same ping, jitter and packet loss,
    whatever the clocks, the speed tests, the disks and the series that the
    two runs started from. *)
Theorem C9_latency_parsing_is_pure :
  forall (self self' : InternetMonitor) (system host host' : string) (count : Z)
         (result : CompletedProcess) (envs1 envs2 : list TickEnv)
         (w1 w2 : World),
    Forall2 same_ping_inputs envs1 envs2 ->
    snd (run_ticks envs1 w1) = Running ->
    snd (run_ticks envs2 w2) = Running ->
    let first := ping_command self system (fun _ => Ok result) host count in
    let second :=
      ping_command (snd (fst first)) system (fun _ => Ok result) host count in
    (fst (fst first) = fst (fst second)
     /\ fst (fst first)
        = fst (fst (ping_command self' system (fun _ => Ok result) host' count))
     /\ fst (fst first)
        = match parse_ping system count result with
          | Ok r => r
          | Raise _ => ping_failed
          end
     /\ snd (fst first) = self
     /\ snd (fst second) = self)
    /\ exists rows1 rows2,
        df (monitor (fst (run_ticks envs1 w1))) = df (monitor w1) ++ rows1
        /\ df (monitor (fst (run_ticks envs2 w2))) = df (monitor w2) ++ rows2
        /\ List.length rows1 = List.length envs1
        /\ map latency_of rows1 = map latency_of rows2.
Proof.
  intros self self' system host host' count result envs1 envs2 w1 w2
         Hsame Hrun1 Hrun2 first second.
  split.
  - unfold second, first.
    rewrite !ping_command_result, !ping_command_monitor.
    unfold ping_attempt; simpl. repeat split.
  - apply run_ticks_same_latency; assumption.
Qed.

Lemma C9_two_runs_same_latency :
  let envs1 := [Inputs.env_ok 1700000000; Inputs.env_ok 1700000001] in
  let envs2 := [Inputs.env_offline 1700009999; Inputs.env_offline 1700010000] in
  let w1 := start "internet_stats.parquet" 300 Samples.no_files in
  let w2 := start "internet_stats.parquet" 600 Inputs.disk_with_log in
  exists rows1 rows2,
    df (monitor (fst (run_ticks envs1 w1))) = df (monitor w1) ++ rows1
    /\ df (monitor (fst (run_ticks envs2 w2))) = df (monitor w2) ++ rows2
    /\ List.length rows1 = List.length envs1
    /\ map latency_of rows1 = map latency_of rows2.
Proof.
  refine (proj2 (C9_latency_parsing_is_pure Samples.fresh Samples.fresh
                   "linux" "8.8.8.8" "8.8.8.8" 3
                   {| returncode := 0; stdout := Samples.linux_three_replies |}
                   [Inputs.env_ok 1700000000; Inputs.env_ok 1700000001]
                   [Inputs.env_offline 1700009999; Inputs.env_offline 1700010000]
                   (start "internet_stats.parquet" 300 Samples.no_files)
                   (start "internet_stats.parquet" 600 Inputs.disk_with_log)
                   _ _ _)).
  - repeat constructor.
  - vm_compute. reflexivity.
  - vm_compute. reflexivity.
Defined.

(** C9 as stated fails: the platform name is read besides the text and the
    count.  The output of the [ping] of Windows, with the same count, gives
    three metrics on Windows and a failed measurement elsewhere. *)
Lemma C9_same_text_and_count_on_two_platforms :
  fst (fst (ping_command Samples.fresh "windows"
              (Samples.finished 0 Samples.windows_two_replies) "8.8.8.8" 3))
  = (Some 11%float, Some 0x1.6a09e667f3bcdp+0%float, 0x1.0aaaaaaaaaaacp+5%float)
  /\ fst (fst (ping_command Samples.fresh "linux"
                 (Samples.finished 0 Samples.windows_two_replies) "8.8.8.8" 3))
     = (None, None, 100%float).
Proof. vm_compute. split; reflexivity. Qed.
